(** * Atulya AI: plan parsing, step execution and model retention

    A shallow embedding of the orchestration core of [Core/agent.py]
    ([IntelligentAgent]) and [Core/model_loader.py] ([DynamicModelLoader]),
    with the properties of the specification that can be decided on it.

    Conventions of the embedding.
    - A Python [str] is a [string] holding the UTF-8 encoding of its code
      points (a lone surrogate is encoded as three bytes like any other
      code point below 0x10000).  Every character the code inspects (braces,
      quotes, keywords) is ASCII, so searching the encoding agrees with
      searching the code points.
    - A value decoded by [json.loads] is a [json]; Python's [None], [True],
      [False] are [JNull], [JBool true], [JBool false].
    - An exception is a value of [exn]; a call that may raise returns an
      [outcome].  [try ... except Exception] is [try_except].
    - A log call is modelled where its message renders a value that is not
      a [str] or an exception: rendering such a value can raise.  The other
      log calls have no influence on any returned value or raised exception.
    - [async]/[await] is sequential in the embedded methods (each call is
      awaited before the next statement runs), so it is plain sequencing. *)

From Stdlib Require Import ZArith Ascii.
From stdpp Require Import base strings list gmap pretty.

Local Open Scope Z_scope.

(** ** Exceptions *)

Inductive exn : Type :=
  | TypeError (msg : string)
  | AttributeError (msg : string)
  | ValueError (msg : string)
  | RecursionError (msg : string)
  | JSONDecodeError (msg : string).

(** [str(e)] *)
Definition exn_str (e : exn) : string :=
  match e with
  | TypeError m | AttributeError m | ValueError m
  | RecursionError m | JSONDecodeError m => m
  end.

Inductive outcome (A : Type) : Type :=
  | Returned (a : A)
  | Raised (e : exn).
Arguments Returned {A} a.
Arguments Raised {A} e.

#[global] Instance outcome_ret : MRet outcome := fun A a => Returned a.
#[global] Instance outcome_bind : MBind outcome := fun A B k m =>
  match m with
  | Returned a => k a
  | Raised e => Raised e
  end.

(** [try: body except Exception as e: handler(e)] *)
Definition try_except {A} (body : outcome A) (handler : exn -> outcome A)
  : outcome A :=
  match body with
  | Returned a => Returned a
  | Raised e => handler e
  end.

(** ** Text *)

Definition dquote : ascii := "034"%char.
Definition backslash : ascii := "092"%char.

(** String literals of JSON text are written with apostrophes in this file;
    [q] turns each apostrophe into a double quote. *)
Fixpoint q (s : string) : string :=
  match s with
  | EmptyString => EmptyString
  | String c r => String (if Ascii.eqb c "'" then dquote else c) (q r)
  end.

(** [needle in hay], for [str] *)
Fixpoint starts_with (p s : string) : bool :=
  match p, s with
  | EmptyString, _ => true
  | String a p', String b s' => Ascii.eqb a b && starts_with p' s'
  | String _ _, EmptyString => false
  end.

Fixpoint str_in (needle hay : string) : bool :=
  starts_with needle hay ||
  match hay with
  | EmptyString => false
  | String _ r => str_in needle r
  end.

(** [s.lower()].  Python lowers every cased code point; what a search for
    an ASCII keyword can observe of it is: the ASCII capitals, U+212A KELVIN
    SIGN (lowered to [k]) and U+0130 (lowered to [i] followed by U+0307).
    Every other code point is lowered to non-ASCII code points, which are
    left as they are here. *)
Definition lower_ascii (c : ascii) : ascii :=
  let n := N_of_ascii c in
  if ((65 <=? n) && (n <=? 90))%N then ascii_of_N (n + 32) else c.

Fixpoint lower (s : string) : string :=
  match s with
  | EmptyString => EmptyString
  | String c r =>
      match r with
      | String c2 r2 =>
          if Ascii.eqb c "196" && Ascii.eqb c2 "176"
          then String "i" (String "204" (String "135" (lower r2)))
          else
            match r2 with
            | String c3 r3 =>
                if Ascii.eqb c "226" && Ascii.eqb c2 "132" && Ascii.eqb c3 "170"
                then String "k" (lower r3)
                else String (lower_ascii c) (lower r)
            | EmptyString => String (lower_ascii c) (lower r)
            end
      | EmptyString => String (lower_ascii c) EmptyString
      end
  end.

(** [s[:n]]: the first [n] code points.  A byte of the form 10xxxxxx
    continues the code point before it. *)
Definition is_continuation (c : ascii) : bool :=
  let n := N_of_ascii c in ((128 <=? n) && (n <? 192))%N.

Fixpoint py_prefix (n : nat) (s : string) : string :=
  match s with
  | EmptyString => EmptyString
  | String c r =>
      if is_continuation c then String c (py_prefix n r)
      else match n with
           | O => EmptyString
           | S n' => String c (py_prefix n' r)
           end
  end.

(** ** Decoded JSON values *)

(** A float literal is kept as the exact decimal [m * 10^e] it denotes;
    no embedded code does arithmetic on it. *)
#[warnings="-register-all"]
Inductive json : Type :=
  | JNull
  | JBool (b : bool)
  | JInt (z : Z)
  | JFloat (m e : Z)
  | JNaN
  | JInfinity (negative : bool)
  | JStr (s : string)
  | JList (l : list json)
  | JDict (d : list (string * json)).

(** A [dict] with [str] keys, in insertion order. *)
Fixpoint dict_get {V} (d : list (string * V)) (k : string) : option V :=
  match d with
  | [] => None
  | (k', v) :: r => if String.eqb k' k then Some v else dict_get r k
  end.

(** [d[k] = v]: an existing key keeps its position. *)
Fixpoint dict_set {V} (d : list (string * V)) (k : string) (v : V)
  : list (string * V) :=
  match d with
  | [] => [(k, v)]
  | (k', v') :: r =>
      if String.eqb k' k then (k', v) :: r else (k', v') :: dict_set r k v
  end.

(** ** [json.loads] (CPython's scanner, default settings) *)

Inductive scan (A : Type) : Type :=
  | Scanned (a : A) (rest : string)
  | Failed (e : exn)
  | Exhausted.
Arguments Scanned {A} a rest.
Arguments Failed {A} e.
Arguments Exhausted {A}.

Definition scan_map {A B} (f : A -> B) (r : scan A) : scan B :=
  match r with
  | Scanned a rest => Scanned (f a) rest
  | Failed e => Failed e
  | Exhausted => Exhausted
  end.

Definition is_ws (c : ascii) : bool :=
  Ascii.eqb c " " || Ascii.eqb c "009" || Ascii.eqb c "010" || Ascii.eqb c "013".

Fixpoint skip_ws (s : string) : string :=
  match s with
  | String c r => if is_ws c then skip_ws r else s
  | EmptyString => s
  end.

Definition is_digit (c : ascii) : bool :=
  let n := N_of_ascii c in ((48 <=? n) && (n <=? 57))%N.

Definition digit_val (c : ascii) : Z := Z.of_N (N_of_ascii c) - 48.

Definition hex_val (c : ascii) : option N :=
  let n := N_of_ascii c in
  if ((48 <=? n) && (n <=? 57))%N then Some (n - 48)%N
  else if ((97 <=? n) && (n <=? 102))%N then Some (n - 87)%N
  else if ((65 <=? n) && (n <=? 70))%N then Some (n - 55)%N
  else None.

Definition hex4 (a b c d : ascii) : option N :=
  match hex_val a, hex_val b, hex_val c, hex_val d with
  | Some x, Some y, Some z, Some w => Some (((x * 16 + y) * 16 + z) * 16 + w)%N
  | _, _, _, _ => None
  end.

Definition is_high_surrogate (c : N) : bool := ((55296 <=? c) && (c <=? 56319))%N.
Definition is_low_surrogate (c : N) : bool := ((56320 <=? c) && (c <=? 57343))%N.
Definition join_surrogates (hi lo : N) : N :=
  (65536 + (hi - 55296) * 1024 + (lo - 56320))%N.

(** The UTF-8 encoding of one code point. *)
Definition utf8 (c : N) : string :=
  let b (n : N) := ascii_of_N n in
  (if c <? 128 then String (b c) EmptyString
   else if c <? 2048 then
     String (b (192 + c / 64)) (String (b (128 + c mod 64)) EmptyString)
   else if c <? 65536 then
     String (b (224 + c / 4096))
       (String (b (128 + (c / 64) mod 64))
          (String (b (128 + c mod 64)) EmptyString))
   else
     String (b (240 + c / 262144))
       (String (b (128 + (c / 4096) mod 64))
          (String (b (128 + (c / 64) mod 64))
             (String (b (128 + c mod 64)) EmptyString))))%N.

(** The character an escape letter stands for ([\uXXXX] apart). *)
Definition unescape (c : ascii) : option ascii :=
  if Ascii.eqb c dquote then Some dquote
  else if Ascii.eqb c backslash then Some backslash
  else if Ascii.eqb c "/" then Some "/"%char
  else if Ascii.eqb c "b" then Some "008"%char
  else if Ascii.eqb c "f" then Some "012"%char
  else if Ascii.eqb c "n" then Some "010"%char
  else if Ascii.eqb c "r" then Some "013"%char
  else if Ascii.eqb c "t" then Some "009"%char
  else None.

Definition decode_error (msg : string) {A} : scan A :=
  Failed (JSONDecodeError msg).

(** [scanstring(s, end, strict=True)]: [s] starts just after the opening
    quote; the result is the decoded content and the text after the closing
    quote. *)
Fixpoint scanstring (s : string) : scan string :=
  match s with
  | EmptyString => decode_error "Unterminated string starting at"
  | String c r =>
      if Ascii.eqb c dquote then Scanned EmptyString r
      else if Ascii.eqb c backslash then
        match r with
        | EmptyString => decode_error "Unterminated string starting at"
        | String e r1 =>
            if Ascii.eqb e "u" then
              match r1 with
              | String h1 (String h2 (String h3 (String h4 r2))) =>
                  match hex4 h1 h2 h3 h4 with
                  | None => decode_error "Invalid \uXXXX escape"
                  | Some cp =>
                      let lone := scan_map (String.append (utf8 cp)) (scanstring r2) in
                      if is_high_surrogate cp then
                        match r2 with
                        | String b (String u (String k1 (String k2 (String k3 (String k4 r3))))) =>
                            if Ascii.eqb b backslash && Ascii.eqb u "u" then
                              match hex4 k1 k2 k3 k4 with
                              | None => decode_error "Invalid \uXXXX escape"
                              | Some c2 =>
                                  if is_low_surrogate c2
                                  then scan_map (String.append (utf8 (join_surrogates cp c2)))
                                         (scanstring r3)
                                  else lone
                              end
                            else lone
                        | _ => lone
                        end
                      else lone
                  end
              | _ => decode_error "Invalid \uXXXX escape"
              end
            else
              match unescape e with
              | Some ch => scan_map (String ch) (scanstring r1)
              | None => decode_error "Invalid \escape"
              end
        end
      else if (N_of_ascii c <=? 31)%N then decode_error "Invalid control character at"
      else scan_map (String c) (scanstring r)
  end.

(** Numbers: an optional minus sign; then a single 0, or a digit 1-9 and
    any number of digits; then optionally a dot and one or more digits; then
    optionally e or E, an optional sign and one or more digits.  Without
    fraction and exponent the literal is an [int], otherwise a [float]. *)
Fixpoint span_digits (s : string) : string * string :=
  match s with
  | String c r =>
      if is_digit c
      then let '(d, t) := span_digits r in (String c d, t)
      else (EmptyString, s)
  | EmptyString => (EmptyString, EmptyString)
  end.

Fixpoint digits_value (acc : Z) (s : string) : Z :=
  match s with
  | String c r => digits_value (acc * 10 + digit_val c) r
  | EmptyString => acc
  end.

Definition match_sign (s : string) : bool * string :=
  match s with
  | String c r => if Ascii.eqb c "-" then (true, r) else (false, s)
  | EmptyString => (false, s)
  end.

Definition match_int_part (s : string) : option (string * string) :=
  match s with
  | String d r =>
      if Ascii.eqb d "0" then Some ("0", r)
      else if is_digit d
      then let '(ds, t) := span_digits r in Some (String d ds, t)
      else None
  | EmptyString => None
  end.

Definition match_fraction (s : string) : string * string :=
  match s with
  | String dot (String d r) =>
      if Ascii.eqb dot "." && is_digit d
      then span_digits (String d r)
      else (EmptyString, s)
  | _ => (EmptyString, s)
  end.

Definition match_exponent (s : string) : option Z * string :=
  match s with
  | String e r =>
      if Ascii.eqb e "e" || Ascii.eqb e "E" then
        let '(neg, r1) :=
          match r with
          | String sg t =>
              if Ascii.eqb sg "-" then (true, t)
              else if Ascii.eqb sg "+" then (false, t)
              else (false, r)
          | EmptyString => (false, r)
          end in
        let '(ds, t) := span_digits r1 in
        match ds with
        | EmptyString => (None, s)
        | String _ _ =>
            (Some (if neg then - digits_value 0 ds else digits_value 0 ds), t)
        end
      else (None, s)
  | EmptyString => (None, s)
  end.

Definition match_number (s : string) : option (json * string) :=
  let '(neg, s1) := match_sign s in
  match match_int_part s1 with
  | None => None
  | Some (ip, s2) =>
      let '(frac, s3) := match_fraction s2 in
      let '(ex, s4) := match_exponent s3 in
      let signed (v : Z) := if neg then - v else v in
      match frac, ex with
      | EmptyString, None => Some (JInt (signed (digits_value 0 ip)), s4)
      | _, _ =>
          Some (JFloat (signed (digits_value 0 (ip +:+ frac)))
                  (default 0 ex - Z.of_nat (String.length frac)), s4)
      end
  end.

Fixpoint str_drop (n : nat) (s : string) : string :=
  match n, s with
  | S n', String _ r => str_drop n' r
  | _, _ => s
  end.

(** [scan_once], [_parse_object] and [_parse_array].  The two loops of the
    scanner are recursions here, so all three take a bound [n] on the number
    of calls; [json_loads] passes one that is never reached
    ([scan_once_enough]). *)
Fixpoint scan_once (n : nat) (s : string) : scan json :=
  match n with
  | O => Exhausted
  | S n' =>
      match s with
      | EmptyString => decode_error "Expecting value"
      | String c r =>
          if Ascii.eqb c dquote then scan_map JStr (scanstring r)
          else if Ascii.eqb c "{" then
            match skip_ws r with
            | String c1 r1 =>
                if Ascii.eqb c1 "}" then Scanned (JDict []) r1
                else parse_object n' (String c1 r1) []
            | EmptyString => parse_object n' EmptyString []
            end
          else if Ascii.eqb c "[" then
            match skip_ws r with
            | String c1 r1 =>
                if Ascii.eqb c1 "]" then Scanned (JList []) r1
                else parse_array n' (String c1 r1) []
            | EmptyString => parse_array n' EmptyString []
            end
          else if starts_with "null" s then Scanned JNull (str_drop 4 s)
          else if starts_with "true" s then Scanned (JBool true) (str_drop 4 s)
          else if starts_with "false" s then Scanned (JBool false) (str_drop 5 s)
          else if starts_with "NaN" s then Scanned JNaN (str_drop 3 s)
          else if starts_with "Infinity" s then Scanned (JInfinity false) (str_drop 8 s)
          else if starts_with "-Infinity" s then Scanned (JInfinity true) (str_drop 9 s)
          else
            match match_number s with
            | Some (v, rest) => Scanned v rest
            | None => decode_error "Expecting value"
            end
      end
  end

(** [s] starts at a property name; [acc] holds the pairs read so far. *)
with parse_object (n : nat) (s : string) (acc : list (string * json))
  : scan json :=
  match n with
  | O => Exhausted
  | S n' =>
      match s with
      | String c r =>
          if Ascii.eqb c dquote then
            match scanstring r with
            | Scanned key r1 =>
                match skip_ws r1 with
                | String c2 r2 =>
                    if Ascii.eqb c2 ":" then
                      match scan_once n' (skip_ws r2) with
                      | Scanned v r3 =>
                          match skip_ws r3 with
                          | String c3 r4 =>
                              if Ascii.eqb c3 "}"
                              then Scanned (JDict (dict_set acc key v)) r4
                              else if Ascii.eqb c3 ","
                              then parse_object n' (skip_ws r4) (dict_set acc key v)
                              else decode_error "Expecting ',' delimiter"
                          | EmptyString => decode_error "Expecting ',' delimiter"
                          end
                      | Failed e => Failed e
                      | Exhausted => Exhausted
                      end
                    else decode_error "Expecting ':' delimiter"
                | EmptyString => decode_error "Expecting ':' delimiter"
                end
            | Failed e => Failed e
            | Exhausted => Exhausted
            end
          else decode_error "Expecting property name enclosed in double quotes"
      | EmptyString =>
          decode_error "Expecting property name enclosed in double quotes"
      end
  end

(** [s] starts at an element; [acc] holds the elements read so far. *)
with parse_array (n : nat) (s : string) (acc : list json) : scan json :=
  match n with
  | O => Exhausted
  | S n' =>
      match scan_once n' s with
      | Scanned v r1 =>
          match skip_ws r1 with
          | String c r2 =>
              if Ascii.eqb c "]" then Scanned (JList (acc ++ [v])) r2
              else if Ascii.eqb c ","
              then parse_array n' (skip_ws r2) (acc ++ [v])
              else decode_error "Expecting ',' delimiter"
          | EmptyString => decode_error "Expecting ',' delimiter"
          end
      | Failed e => Failed e
      | Exhausted => Exhausted
      end
  end.

Definition utf8_bom : string :=
  String "239" (String "187" (String "191" EmptyString)).

Definition scan_bound (s : string) : nat := (2 * String.length s + 2)%nat.

(** [json.loads(s)].  The interpreter's recursion limit is not modelled
    (CPython raises [RecursionError] on nesting deeper than it allows). *)
Definition json_loads (s : string) : outcome json :=
  if starts_with utf8_bom s
  then Raised (JSONDecodeError "Unexpected UTF-8 BOM (decode using utf-8-sig)")
  else
    match scan_once (scan_bound s) (skip_ws s) with
    | Scanned v rest =>
        match skip_ws rest with
        | EmptyString => Returned v
        | String _ _ => Raised (JSONDecodeError "Extra data")
        end
    | Failed e => Raised e
    | Exhausted => Raised (RecursionError "maximum recursion depth exceeded")
    end.

(** ** Python operations on decoded values *)

(** [type(v).__name__] *)
Definition type_name (v : json) : string :=
  match v with
  | JNull => "NoneType"
  | JBool _ => "bool"
  | JInt _ => "int"
  | JFloat _ _ | JNaN | JInfinity _ => "float"
  | JStr _ => "str"
  | JList _ => "list"
  | JDict _ => "dict"
  end.

(** [bool(v)].  A float literal is false when it denotes zero or rounds to
    zero in binary64, that is when its magnitude is at most 2^-1075. *)
Definition truthy (v : json) : bool :=
  match v with
  | JNull => false
  | JBool b => b
  | JInt z => negb (z =? 0)
  | JFloat m e =>
      if m =? 0 then false
      else if 0 <=? e then true
      else 10 ^ (- e) <? Z.abs m * 2 ^ 1075
  | JNaN | JInfinity _ => true
  | JStr s => negb (String.eqb s EmptyString)
  | JList l => match l with [] => false | _ :: _ => true end
  | JDict d => match d with [] => false | _ :: _ => true end
  end.

(** [v.get(key, default)]: only a [dict] has the method. *)
Definition py_get (v : json) (key : string) (dflt : json) : outcome json :=
  match v with
  | JDict d => Returned (default dflt (dict_get d key))
  | _ => Raised (AttributeError
                   ("'" +:+ type_name v +:+ "' object has no attribute 'get'"))
  end.

(** [v == s] for a [str] literal [s] *)
Definition eq_str (v : json) (s : string) : bool :=
  match v with
  | JStr t => String.eqb t s
  | _ => false
  end.

Fixpoint chars (s : string) : list string :=
  match s with
  | EmptyString => []
  | String c r =>
      match chars r with
      | t :: l =>
          match t with
          | String c2 _ =>
              if is_continuation c2 then String c t :: l
              else String c EmptyString :: t :: l
          | EmptyString => String c EmptyString :: t :: l
          end
      | [] => [String c EmptyString]
      end
  end.

(** [iter(v)]: the elements of a list, the keys of a dict, the characters
    of a string. *)
Definition py_iter (v : json) : outcome (list json) :=
  match v with
  | JList l => Returned l
  | JDict d => Returned (map (fun kv => JStr (fst kv)) d)
  | JStr s => Returned (map JStr (chars s))
  | _ => Raised (TypeError ("'" +:+ type_name v +:+ "' object is not iterable"))
  end.

(** Lists and dicts cannot be dict keys. *)
Definition unhashable (v : json) : bool :=
  match v with
  | JList _ | JDict _ => true
  | _ => false
  end.

(** [v[key]] for a [str] key: [None] when the subscript raises, which is a
    [KeyError] for a dict without the key and a [TypeError] for every value
    that is not a dict. *)
Definition py_getitem (v : json) (key : string) : option json :=
  match v with
  | JDict d => dict_get d key
  | _ => None
  end.

(** ** [re.search(r'\{.*\}', s, re.DOTALL)] *)

(** The suffix of [s] that starts at its first opening brace. *)
Fixpoint from_first_open (s : string) : option string :=
  match s with
  | EmptyString => None
  | String c r => if Ascii.eqb c "{" then Some s else from_first_open r
  end.

(** The longest prefix of [s] that ends in a closing brace. *)
Fixpoint upto_last_close (s : string) : option string :=
  match s with
  | EmptyString => None
  | String c r =>
      match upto_last_close r with
      | Some u => Some (String c u)
      | None => if Ascii.eqb c "}" then Some (String c EmptyString) else None
      end
  end.

(** The match is the leftmost one, and [.*] is greedy and crosses newlines:
    it runs from the first opening brace to the last closing brace after
    it.  The result is [json_match.group()]. *)
Definition regex_search (s : string) : option string :=
  match from_first_open s with
  | Some (String c r) => String c <$> upto_last_close r
  | _ => None
  end.

(** ** [IntelligentAgent.create_fallback_plan] *)

Definition create_fallback_plan (user_input : string) : json :=
  JDict
    [ ("intent", JStr "Respond to user request");
      ("complexity", JStr "simple");
      ("primary_capability", JStr "text");
      ("additional_capabilities", JList []);
      ("tools_needed", JList []);
      ("execution_steps",
        JList
          [ JDict
              [ ("step", JInt 1);
                ("action", JStr "Generate helpful response");
                ("capability", JStr "text");
                ("depends_on", JList []) ] ]);
      ("memory_operations",
        JDict [ ("retrieve", JList []); ("store", JStr "User interaction") ]);
      ("admin_access_needed", JBool false);
      ("estimated_time", JStr "quick");
      ("confidence", JFloat 5 (-1)) ].

(** ** [IntelligentAgent.parse_execution_plan] *)

Definition parse_execution_plan (response : string) : outcome json :=
  try_except
    (match regex_search response with
     | Some group => json_loads group
     | None => Returned (create_fallback_plan "")
     end)
    (fun _ => Returned (create_fallback_plan "")).

(** ** [DynamicModelLoader.fallback_parse] *)

Definition capabilities : list (string * list string) :=
  [ ("vision", ["image"; "photo"; "picture"; "visual"; "see"; "look"]);
    ("speech_input", ["speech"; "voice"; "audio"; "listen"; "hear"]);
    ("speech_output", ["speak"; "say"; "voice"; "tts"; "text to speech"]);
    ("video", ["video"; "movie"; "clip"; "recording"]);
    ("document", ["pdf"; "document"; "file"; "text"; "extract"]);
    ("audio_generation", ["music"; "sound"; "audio"; "generate"; "create"]);
    ("embedding", ["search"; "similar"; "find"; "memory"]) ].

Definition detect (table : list (string * list string)) (response_lower : string)
  : list string :=
  fst <$> filter (fun entry =>
                    Is_true (existsb (fun keyword => str_in keyword response_lower)
                                     (snd entry)))
                 table.

Definition fallback_parse (response : string) : json :=
  let response_lower := lower response in
  let detected := detect capabilities response_lower in
  JDict
    [ ("primary_capability",
        JStr (match detected with d :: _ => d | [] => "text" end));
      ("additional_capabilities",
        JList (JStr <$> (if decide (1 < length detected)%nat
                         then drop 1 detected else [])));
      ("reasoning", JStr "Keyword-based detection");
      ("confidence",
        match detected with _ :: _ => JFloat 7 (-1) | [] => JFloat 3 (-1) end) ].

(** ** [DynamicModelLoader.parse_task_analysis] *)

Definition parse_task_analysis (response : string) : outcome json :=
  try_except
    (match regex_search response with
     | Some group => json_loads group
     | None => Returned (fallback_parse response)
     end)
    (fun _ => Returned (fallback_parse response)).

(** [keep_models or ["deepseek-r1"]]: [None] and the empty list are false. *)
Definition keep_or_default (keep_models : option (list string)) : list string :=
  match keep_models with
  | Some (k :: l) => k :: l
  | Some [] | None => ["deepseek-r1"]
  end.

(** ** What the embedded methods take from their environment *)

(** The libraries behind the models, the module-level flags and the two
    text renderings, of which the embedded code only uses whether they raise
    and, when they do not, the text, which it copies into prompts, results
    and log messages. *)
Class Runtime : Type := {
  (** objects built by the model libraries (tokenizers, processors, models) *)
  Handle : Type;
  (** building the objects of one kind of model from a model path; [None]
      when the library raises, which every [load_*_model] catches *)
  from_pretrained : string -> json -> option Handle;
  TORCH_AVAILABLE : bool;
  MODEL_LOADER_AVAILABLE : bool;
  (** [json.dumps(v, indent=indent)] *)
  json_dumps : option nat -> json -> outcome string;
  (** [format(v)] for a value [v] that is not a [str], [None] or a [bool]: a
      number, a list or a dict.  It raises [RecursionError] on a value
      nested too deeply and [ValueError] on an integer of too many digits. *)
  format_value : json -> outcome string;
}.

(** [format(v)], as an f-string renders a value.  A [str] is rendered as
    itself; it, [None], [True] and [False] are rendered without fail. *)
Definition py_format `{Runtime} (v : json) : outcome string :=
  match v with
  | JStr s => Returned s
  | JNull => Returned "None"
  | JBool true => Returned "True"
  | JBool false => Returned "False"
  | _ => format_value v
  end.

Definition nl : string := String "010" EmptyString.
Definition dq : string := String dquote EmptyString.
Definition indent8 : string := "        ".

Section Embedding.
Context `{Runtime}.

(** ** [DynamicModelLoader] *)

(** A loaded model is a non-empty dict: its ["type"], for a text model its
    ["config"], and the library objects ([None] for the placeholder that
    stands in for a text model when PyTorch is missing). *)
Record Model : Type := {
  model_type : string;
  model_config : option json;
  model_handle : option Handle;
}.

Record DynamicModelLoader : Type := {
  config : json;
  loaded_models : gmap string Model;
  main_brain : option Model;
}.

Definition set_loaded_models (self : DynamicModelLoader)
    (m : gmap string Model) : DynamicModelLoader :=
  {| config := config self; loaded_models := m; main_brain := main_brain self |}.

Definition load_text_model (model_path config : json) : option Model :=
  if negb TORCH_AVAILABLE
  then Some {| model_type := "text"; model_config := Some config;
               model_handle := None |}
  else
    h ← from_pretrained "text" model_path;
    Some {| model_type := "text"; model_config := Some config;
            model_handle := Some h |}.

(** [load_vision_model], [load_speech_input_model], [load_speech_output_model],
    [load_video_model], [load_document_model], [load_audio_generation_model]
    and [load_embedding_model] differ in the library they call and in the
    ["type"] they record. *)
Definition load_typed_model (type : string) (model_path : json) : option Model :=
  h ← from_pretrained type model_path;
  Some {| model_type := type; model_config := None; model_handle := Some h |}.

(** [v.get(key, dflt)] for a key that is any hashable value: the keys of
    the configuration are strings, so no other key is found. *)
Definition py_get_key (v key dflt : json) : outcome json :=
  match v, key with
  | JDict d, JStr k => Returned (default dflt (dict_get d k))
  | JDict d, _ => Returned dflt
  | _, _ => py_get v EmptyString dflt
  end.

(** [load_model(model_name, force_reload)]: the value returned or the
    exception raised, and the loader afterwards.  The log messages of the
    [try] block render the model's name and its use case; an exception raised
    in the block ends in the [except] clause, whose own message renders the
    name again before [None] is returned. *)
Definition load_model (self : DynamicModelLoader) (model_name : json)
    (force_reload : bool) : outcome (option Model) * DynamicModelLoader :=
  if unhashable model_name
  then (Raised (TypeError ("unhashable type: '" +:+ type_name model_name +:+ "'")),
        self)
  else
    let already :=
      match model_name with
      | JStr name => loaded_models self !! name
      | _ => None
      end in
    match already, force_reload with
    | Some model, false => (Returned (Some model), self)
    | _, _ =>
        let attempt : outcome (option Model) :=
          models ← py_get (config self) "models" (JDict []);
          model_config ← py_get_key models model_name (JDict []);
          enabled ← py_get model_config "enabled" (JBool false);
          if negb (truthy enabled) then
            _ ← py_format model_name;
            Returned None
          else
            model_path ← py_get model_config "model" JNull;
            use_case ← py_get model_config "use_case" (JStr "general");
            _ ← py_format model_name;
            _ ← py_format use_case;
            if eq_str use_case "general"
            then Returned (load_text_model model_path model_config)
            else if eq_str use_case "vision"
            then Returned (load_typed_model "vision" model_path)
            else if eq_str use_case "speech_input"
            then Returned (load_typed_model "speech_input" model_path)
            else if eq_str use_case "speech_output"
            then Returned (load_typed_model "speech_output" model_path)
            else if eq_str use_case "video"
            then Returned (load_typed_model "video" model_path)
            else if eq_str use_case "document"
            then Returned (load_typed_model "document" model_path)
            else if eq_str use_case "audio_generation"
            then Returned (load_typed_model "audio_generation" model_path)
            else if eq_str use_case "embedding"
            then Returned (load_typed_model "embedding" model_path)
            else
              _ ← py_format use_case;
              Returned None in
        match attempt, model_name with
        | Returned (Some model), JStr name =>
            (Returned (Some model),
             set_loaded_models self (<[name := model]> (loaded_models self)))
        | Returned model, _ => (Returned model, self)
        | Raised _, _ =>
            match py_format model_name with
            | Returned _ => (Returned None, self)
            | Raised e => (Raised e, self)
            end
        end
    end.

(** [unload_unused_models(keep_models)].  Emptying the GPU cache afterwards
    changes nothing the loader holds. *)
Definition unload_unused_models (self : DynamicModelLoader)
    (keep_models : option (list string)) : DynamicModelLoader :=
  let keep_models := keep_or_default keep_models in
  let to_unload :=
    filter (fun model_name => model_name ∉ keep_models)
           (fst <$> map_to_list (loaded_models self)) in
  set_loaded_models self
    (foldl (fun m model_name => delete model_name m) (loaded_models self) to_unload).

(** [initialize_main_brain()] *)
Definition initialize_main_brain (self : DynamicModelLoader)
  : DynamicModelLoader :=
  match (model ← py_get (config self) "model" (JDict []);
         py_get model "primary" (JStr "deepseek-r1")) with
  | Raised _ => self
  | Returned primary_model =>
      match load_model self primary_model false with
      | (Returned model, self') =>
          {| config := config self'; loaded_models := loaded_models self';
             main_brain := model |}
      | (Raised _, self') => self'
      end
  end.

(** [DynamicModelLoader.get_main_brain_response] *)
Definition loader_get_main_brain_response (self : DynamicModelLoader)
    (prompt : string) : string :=
  match main_brain self with
  | Some brain =>
      if String.eqb (model_type brain) "text"
      then "Analyzing: " +:+ py_prefix 100 prompt
           +:+ "... -> {'primary_capability': 'text', 'confidence': 0.8}"
      else "Main brain not available"
  | None => "Main brain not available"
  end.

(** The f-string [analysis_prompt] of [analyze_task], with the rendering of
    [context or {}] in place. *)
Definition analysis_prompt (user_input context_text : string) : string :=
  nl
    +:+ indent8 +:+ "Analyze this user request and determine which AI capabilities are needed:" +:+ nl
    +:+ indent8 +:+ nl
    +:+ indent8 +:+ q "User Request: '" +:+ user_input +:+ q "'" +:+ nl
    +:+ indent8 +:+ "Context: " +:+ context_text +:+ nl
    +:+ indent8 +:+ nl
    +:+ indent8 +:+ "Available capabilities:" +:+ nl
    +:+ indent8 +:+ "- text: General text processing, reasoning, chat" +:+ nl
    +:+ indent8 +:+ "- vision: Image analysis, captioning" +:+ nl
    +:+ indent8 +:+ "- speech_input: Convert speech to text" +:+ nl
    +:+ indent8 +:+ "- speech_output: Convert text to speech" +:+ nl
    +:+ indent8 +:+ "- video: Analyze video content" +:+ nl
    +:+ indent8 +:+ "- document: Process PDFs, extract text/structure" +:+ nl
    +:+ indent8 +:+ "- audio_generation: Create music or sounds" +:+ nl
    +:+ indent8 +:+ "- embedding: Search, similarity, memory" +:+ nl
    +:+ indent8 +:+ nl
    +:+ indent8 +:+ "Return a JSON with:" +:+ nl
    +:+ indent8 +:+ "{" +:+ nl
    +:+ indent8 +:+ q "    'primary_capability': 'main capability needed'," +:+ nl
    +:+ indent8 +:+ q "    'additional_capabilities': ['list', 'of', 'other', 'needed', 'capabilities']," +:+ nl
    +:+ indent8 +:+ q "    'reasoning': 'why these capabilities are needed'," +:+ nl
    +:+ indent8 +:+ q "    'confidence': 0.95" +:+ nl
    +:+ indent8 +:+ "}" +:+ nl
    +:+ indent8.

(** [analyze_task(user_input, context)]; [context] is [JNull] for [None].
    The prompt is built before the [try] block; the log message that renders
    the plan is inside it. *)
Definition analyze_task (self : DynamicModelLoader) (user_input : string)
    (context : json) : outcome json :=
  context_text ← py_format (if truthy context then context else JDict []);
  let analysis_prompt := analysis_prompt user_input context_text in
  try_except
    (match main_brain self with
     | Some _ =>
         plan ← parse_task_analysis
                  (loader_get_main_brain_response self analysis_prompt);
         _ ← py_format plan;
         Returned plan
     | None =>
         Returned
           (JDict
              [ ("primary_capability", JStr "text");
                ("additional_capabilities", JList []);
                ("reasoning",
                  JStr "Main brain not available, using text fallback");
                ("confidence", JFloat 5 (-1)) ])
     end)
    (fun e =>
       Returned
         (JDict
            [ ("primary_capability", JStr "text");
              ("additional_capabilities", JList []);
              ("reasoning", JStr ("Analysis failed: " +:+ exn_str e));
              ("confidence", JFloat 1 (-1)) ])).

(** The statements [get_models_for_task] runs for a capability: the model
    that the ["model"] table of the configuration names for the capability is
    loaded and, when there is one, stored under the capability.  A name is
    found only under a [str] capability, the keys of the configuration being
    strings. *)
Definition load_for_capability (self : DynamicModelLoader) (capability : json)
    (required_models : list (string * Model))
  : outcome (list (string * Model)) * DynamicModelLoader :=
  match (table ← py_get (config self) "model" (JDict []);
         match table with
         | JDict _ =>
             if unhashable capability
             then Raised (TypeError ("unhashable type: '"
                                     +:+ type_name capability +:+ "'"))
             else py_get_key table capability JNull
         | _ => py_get table EmptyString JNull
         end) with
  | Raised e => (Raised e, self)
  | Returned model_name =>
      if truthy model_name then
        match load_model self model_name false, capability with
        | (Returned (Some model), self'), JStr name =>
            (Returned (dict_set required_models name model), self')
        | (Returned _, self'), _ => (Returned required_models, self')
        | (Raised e, self'), _ => (Raised e, self')
        end
      else (Returned required_models, self)
  end.

(** The [for] loop of [get_models_for_task]; an exception ends it. *)
Fixpoint load_for_each (self : DynamicModelLoader) (additional : list json)
    (required_models : list (string * Model))
  : outcome (list (string * Model)) * DynamicModelLoader :=
  match additional with
  | [] => (Returned required_models, self)
  | capability :: rest =>
      match load_for_capability self capability required_models with
      | (Returned required_models', self') =>
          load_for_each self' rest required_models'
      | (Raised e, self') => (Raised e, self')
      end
  end.

(** [get_models_for_task(task_plan)] *)
Definition get_models_for_task (self : DynamicModelLoader) (task_plan : json)
  : outcome (list (string * Model)) * DynamicModelLoader :=
  match py_get task_plan "primary_capability" JNull with
  | Raised e => (Raised e, self)
  | Returned primary =>
      match (if truthy primary then load_for_capability self primary []
             else (Returned [], self)) with
      | (Raised e, self1) => (Raised e, self1)
      | (Returned required_models, self1) =>
          match (additional ← py_get task_plan "additional_capabilities" (JList []);
                 py_iter additional) with
          | Raised e => (Raised e, self1)
          | Returned additional => load_for_each self1 additional required_models
          end
      end
  end.

(** The dict [analyze_and_execute] returns. *)
Record Prepared : Type := {
  task_plan : json;
  models : list (string * Model);
  ready : bool;
}.

(** The module-level [analyze_and_execute(user_input, context)], on the
    module's loader [model_loader]. *)
Definition analyze_and_execute (model_loader : DynamicModelLoader)
    (user_input : string) (context : json)
  : outcome Prepared * DynamicModelLoader :=
  match analyze_task model_loader user_input context with
  | Raised e => (Raised e, model_loader)
  | Returned task_plan =>
      match get_models_for_task model_loader task_plan with
      | (Raised e, model_loader') => (Raised e, model_loader')
      | (Returned required_models, model_loader') =>
          (Returned {| task_plan := task_plan; models := required_models;
                       ready := bool_decide (0 < length required_models)%nat |},
           model_loader')
      end
  end.

(** ** [IntelligentAgent] *)

(** A registered tool: called with the input and the plan, awaited, and its
    result turned into text by [str]. *)
Definition Tool : Type := string -> json -> outcome string.

(** The object [agent.py] binds to [tool_registry]: the registry of
    [tool_registry.py] with its [tools] dict, or the placeholder class
    defined when the import fails. *)
Inductive Registry : Type :=
  | PlaceholderToolRegistry
  | ToolRegistry (registered : gmap string Tool).

(** The attributes the embedded methods read: the tool registry and the
    model loader ([None] when the import failed). *)
Record IntelligentAgent : Type := {
  tools : Registry;
  model_loader : option DynamicModelLoader;
}.

Definition set_model_loader (self : IntelligentAgent)
    (l : option DynamicModelLoader) : IntelligentAgent :=
  {| tools := tools self; model_loader := l |}.

Definition get_main_brain_response (self : IntelligentAgent) (prompt : string)
  : string :=
  match MODEL_LOADER_AVAILABLE, model_loader self with
  | true, Some loader =>
      match main_brain loader with
      | Some brain =>
          if String.eqb (model_type brain) "text"
          then "Analyzing request: " +:+ py_prefix 50 prompt
               +:+ "... -> AI processing complete"
          else "I understand you want: " +:+ py_prefix 100 prompt +:+ "..."
      | None => "I understand you want: " +:+ py_prefix 100 prompt +:+ "..."
      end
  | _, _ => "Processing your request: " +:+ py_prefix 50 prompt +:+ "..."
  end.

(** [get_tool(tool_name)]: [None] for the placeholder,
    [self.tools.get(tool_name)] for the registry. *)
Definition get_tool (self : IntelligentAgent) (tool_name : json)
  : outcome (option Tool) :=
  match tools self with
  | PlaceholderToolRegistry => Returned None
  | ToolRegistry registered =>
      if unhashable tool_name
      then Raised (TypeError ("unhashable type: '" +:+ type_name tool_name +:+ "'"))
      else
        Returned (match tool_name with
                  | JStr name => registered !! name
                  | _ => None
                  end)
  end.

(** [use_tool(tool_name, input_data, context)].  Both messages render the
    tool's name: the one of the [try] block ends in the [except] clause when
    it raises, the one of the [except] clause is not caught. *)
Definition use_tool (self : IntelligentAgent) (tool_name : json)
    (input_data : string) (context : json) : outcome string :=
  try_except
    (tool_function ← get_tool self tool_name;
     match tool_function with
     | Some f => f input_data context
     | None =>
         name ← py_format tool_name;
         Returned ("Tool " +:+ name +:+ " not found")
     end)
    (fun e =>
       name ← py_format tool_name;
       Returned ("Error using tool " +:+ name +:+ ": " +:+ exn_str e)).

Definition process_vision (input_data : string) (vision_model : option Model)
  : string :=
  match vision_model with
  | None => "Vision capability not available"
  | Some _ => "Vision processing completed"
  end.

Definition process_speech_input (input_data : string)
    (speech_model : option Model) : string :=
  match speech_model with
  | None => "Speech input capability not available"
  | Some _ => "Speech processing completed"
  end.

Definition process_speech_output (text : string) (tts_model : option Model)
  : string :=
  match tts_model with
  | None => "Speech output capability not available"
  | Some _ => "Speech generation completed"
  end.

Definition process_embedding (input_data : string)
    (embedding_model : option Model) : string :=
  match embedding_model with
  | None => "Embedding capability not available"
  | Some _ => "Embedding processing completed"
  end.

Definition process_with_main_brain (self : IntelligentAgent) (action : json)
    (user_input : string) (context : json) : outcome string :=
  action_text ← py_format action;
  dumped ← json_dumps None context;
  Returned
    (get_main_brain_response self
       ("Action: " +:+ action_text +:+ nl +:+ "User Input: " +:+ user_input
        +:+ nl +:+ "Context: " +:+ dumped +:+ nl +:+ nl
        +:+ "Provide a helpful response:")).

(** The f-string [analysis_prompt] of [analyze_and_plan], with the two
    serialised values in place. *)
Definition plan_prompt (user_input context_text history_text : string)
  : string :=
  nl
    +:+ indent8 +:+ "You are Atulya AI's main brain. Analyze this user request and create a dynamic execution plan." +:+ nl
    +:+ indent8 +:+ nl
    +:+ indent8 +:+ q "User Request: '" +:+ user_input +:+ q "'" +:+ nl
    +:+ indent8 +:+ "User Context: " +:+ context_text +:+ nl
    +:+ indent8 +:+ "Recent Conversation: " +:+ history_text +:+ nl
    +:+ indent8 +:+ nl
    +:+ indent8 +:+ "Available capabilities:" +:+ nl
    +:+ indent8 +:+ "- text: General reasoning, conversation, analysis" +:+ nl
    +:+ indent8 +:+ "- vision: Image analysis, object detection, captioning" +:+ nl
    +:+ indent8 +:+ "- speech_input: Convert speech to text" +:+ nl
    +:+ indent8 +:+ "- speech_output: Convert text to speech" +:+ nl
    +:+ indent8 +:+ "- video: Video analysis and processing" +:+ nl
    +:+ indent8 +:+ "- document: PDF/document processing" +:+ nl
    +:+ indent8 +:+ "- audio_generation: Create music or sounds" +:+ nl
    +:+ indent8 +:+ "- embedding: Search, similarity, memory operations" +:+ nl
    +:+ indent8 +:+ "- tools: File operations, web search, email, calendar, code execution" +:+ nl
    +:+ indent8 +:+ nl
    +:+ indent8 +:+ "Create a comprehensive execution plan with:" +:+ nl
    +:+ indent8 +:+ "{" +:+ nl
    +:+ indent8 +:+ q "    'intent': 'what the user wants to achieve'," +:+ nl
    +:+ indent8 +:+ q "    'complexity': 'simple|moderate|complex'," +:+ nl
    +:+ indent8 +:+ q "    'primary_capability': 'main capability needed'," +:+ nl
    +:+ indent8 +:+ q "    'additional_capabilities': ['list of other needed capabilities']," +:+ nl
    +:+ indent8 +:+ q "    'tools_needed': ['list of tools required']," +:+ nl
    +:+ indent8 +:+ q "    'execution_steps': [" +:+ nl
    +:+ indent8 +:+ "        {" +:+ nl
    +:+ indent8 +:+ q "            'step': 1," +:+ nl
    +:+ indent8 +:+ q "            'action': 'what to do'," +:+ nl
    +:+ indent8 +:+ q "            'capability': 'which capability to use'," +:+ nl
    +:+ indent8 +:+ q "            'tool': 'specific tool if needed'," +:+ nl
    +:+ indent8 +:+ q "            'depends_on': []" +:+ nl
    +:+ indent8 +:+ "        }" +:+ nl
    +:+ indent8 +:+ "    ]," +:+ nl
    +:+ indent8 +:+ q "    'memory_operations': {" +:+ nl
    +:+ indent8 +:+ q "        'retrieve': ['what to search in memory']," +:+ nl
    +:+ indent8 +:+ q "        'store': 'what to remember about this interaction'" +:+ nl
    +:+ indent8 +:+ "    }," +:+ nl
    +:+ indent8 +:+ q "    'admin_access_needed': false," +:+ nl
    +:+ indent8 +:+ q "    'estimated_time': 'quick|moderate|long'," +:+ nl
    +:+ indent8 +:+ q "    'confidence': 0.95" +:+ nl
    +:+ indent8 +:+ "}" +:+ nl
    +:+ indent8 +:+ nl
    +:+ indent8 +:+ "Be intelligent about delegation - only use specialized models/tools when actually needed." +:+ nl
    +:+ indent8.

(** [analyze_and_plan(user_input, user_id)], from its third statement on:
    [context] is what [get_user_context(user_id)] returned and
    [recent_history] is [self.conversation_history[-5:]].  The two
    serialisations run before the [try]; inside it, an exception of the
    parser, of the subscript [plan['intent']] and of the log message that
    renders the intent all end in the [except] clause. *)
Definition analyze_and_plan (self : IntelligentAgent) (user_input : string)
    (context recent_history : json) : outcome json :=
  context_text ← json_dumps (Some 2%nat) context;
  history_text ← json_dumps (Some 2%nat) recent_history;
  let analysis_prompt := plan_prompt user_input context_text history_text in
  let plan_response := get_main_brain_response self analysis_prompt in
  match parse_execution_plan plan_response with
  | Returned plan =>
      match py_getitem plan "intent" with
      | Some intent =>
          match py_format intent with
          | Returned _ => Returned plan
          | Raised _ => Returned (create_fallback_plan user_input)
          end
      | None => Returned (create_fallback_plan user_input)
      end
  | Raised _ => Returned (create_fallback_plan user_input)
  end.

(** The [for] loop of [load_required_models]: the models gathered so far
    and the loader after the calls.  An exception of [load_model] is caught,
    the warning that renders the capability is logged and the loop goes on;
    an exception raised by the rendering ends the loop. *)
Fixpoint load_each (loader : DynamicModelLoader) (capabilities : list json)
    (required_models : list (string * Model))
  : outcome (list (string * Model)) * DynamicModelLoader :=
  match capabilities with
  | [] => (Returned required_models, loader)
  | capability :: rest =>
      if truthy capability && negb (eq_str capability "tools") then
        match load_model loader capability false, capability with
        | (Returned (Some model), loader'), JStr name =>
            load_each loader' rest (dict_set required_models name model)
        | (Returned _, loader'), _ => load_each loader' rest required_models
        | (Raised _, loader'), _ =>
            match py_format capability with
            | Returned _ => load_each loader' rest required_models
            | Raised e => (Raised e, loader')
            end
        end
      else load_each loader rest required_models
  end.

Definition load_required_models (self : IntelligentAgent) (plan : json)
  : outcome (list (string * Model)) * IntelligentAgent :=
  match MODEL_LOADER_AVAILABLE, model_loader self with
  | true, Some loader =>
      match (primary ← py_get plan "primary_capability" JNull;
             additional ← py_get plan "additional_capabilities" (JList []);
             more ← py_iter additional;
             Returned (primary :: more)) with
      | Raised e => (Raised e, self)
      | Returned capabilities =>
          let '(result, loader') := load_each loader capabilities [] in
          (result, set_model_loader self (Some loader'))
      end
  | _, _ => (Returned [], self)
  end.

Definition cleanup_models (self : IntelligentAgent) (plan : json)
  : outcome unit * IntelligentAgent :=
  match MODEL_LOADER_AVAILABLE, model_loader self with
  | true, Some loader =>
      match py_get plan "complexity" JNull with
      | Raised e => (Raised e, self)
      | Returned complexity =>
          let keep_models :=
            ["deepseek-r1"]
            ++ (if eq_str complexity "complex" then ["embedding"; "text"] else []) in
          (Returned (),
           set_model_loader self
             (Some (unload_unused_models loader (Some keep_models))))
      end
  | _, _ => (Returned (), self)
  end.

(** ** [IntelligentAgent.execute_step] *)

Definition execute_step (self : IntelligentAgent) (step plan : json)
    (user_input user_id : string) (models : list (string * Model))
  : outcome json :=
  try_except
    (action ← py_get step "action" (JStr EmptyString);
     capability ← py_get step "capability" (JStr "text");
     tool ← py_get step "tool" JNull;
     step_number ← py_get step "step" (JInt 0);
     let step_result :=
       [ ("step_number", step_number);
         ("action", action);
         ("capability", capability);
         ("success", JBool true);
         ("result", JStr EmptyString);
         ("tool_used", tool) ] in
     result ←
       (if truthy tool then use_tool self tool user_input plan
        else if eq_str capability "vision"
        then Returned (process_vision user_input (dict_get models "vision"))
        else if eq_str capability "speech_input"
        then Returned (process_speech_input user_input (dict_get models "speech_input"))
        else if eq_str capability "speech_output"
        then Returned (process_speech_output user_input (dict_get models "speech_output"))
        else if eq_str capability "embedding"
        then Returned (process_embedding user_input (dict_get models "embedding"))
        else process_with_main_brain self action user_input plan);
     Returned (JDict (dict_set step_result "result" (JStr result))))
    (fun e =>
       step_number ← py_get step "step" (JInt 0);
       action ← py_get step "action" (JStr EmptyString);
       Returned
         (JDict
            [ ("step_number", step_number);
              ("action", action);
              ("success", JBool false);
              ("error", JStr (exn_str e));
              ("result", JStr EmptyString) ])).

(** ** [IntelligentAgent.execute_plan] *)

(** The dict [execution_results]; ["error"] is absent until it is set. *)
Record ExecutionResults : Type := {
  plan_executed : json;
  steps_completed : list json;
  models_used : list string;
  tools_used : list json;
  response : string;
  success : bool;
  error : option string;
}.

Definition record_step (r : ExecutionResults) (step_result : json)
  : ExecutionResults :=
  {| plan_executed := plan_executed r;
     steps_completed := steps_completed r ++ [step_result];
     models_used := models_used r;
     tools_used :=
       match dict_get (match step_result with JDict d => d | _ => [] end)
                      "tool_used" with
       | Some tool => if truthy tool then tools_used r ++ [tool] else tools_used r
       | None => tools_used r
       end;
     response := response r;
     success := success r;
     error := error r |}.

Definition set_response (r : ExecutionResults) (text : string)
  : ExecutionResults :=
  {| plan_executed := plan_executed r;
     steps_completed := steps_completed r;
     models_used := models_used r;
     tools_used := tools_used r;
     response := text;
     success := success r;
     error := error r |}.

Definition get_fallback_response (user_input : string) : string :=
  "I understand your request about '" +:+ py_prefix 50 user_input
  +:+ "...' but encountered some technical difficulties. Let me try to help in a different way.".

(** The [except] clause of [execute_plan]. *)
Definition execution_failed (r : ExecutionResults) (e : exn)
    (user_input : string) : ExecutionResults :=
  {| plan_executed := plan_executed r;
     steps_completed := steps_completed r;
     models_used := models_used r;
     tools_used := tools_used r;
     response := get_fallback_response user_input;
     success := false;
     error := Some (exn_str e) |}.

(** The [for] loop over the steps: the results so far, and the exception
    that ended the loop if one escaped [execute_step]. *)
Fixpoint run_steps (self : IntelligentAgent) (steps : list json) (plan : json)
    (user_input user_id : string) (models : list (string * Model))
    (r : ExecutionResults) : ExecutionResults * option exn :=
  match steps with
  | [] => (r, None)
  | step :: rest =>
      match execute_step self step plan user_input user_id models with
      | Returned step_result =>
          run_steps self rest plan user_input user_id models
            (record_step r step_result)
      | Raised e => (r, Some e)
      end
  end.

Definition generate_final_response (self : IntelligentAgent)
    (execution_results : ExecutionResults) (user_input : string) (plan : json)
  : outcome string :=
  intent ← py_get plan "intent" (JStr EmptyString);
  intent_text ← py_format intent;
  success_text ← py_format (JBool (success execution_results));
  dumped ← json_dumps (Some 2%nat) (JList (steps_completed execution_results));
  Returned
    (get_main_brain_response self
       (nl +:+ indent8
        +:+ "Generate a helpful response to the user based on these execution results:"
        +:+ nl +:+ indent8
        +:+ nl +:+ indent8 +:+ "User Input: " +:+ String dquote user_input
        +:+ String dquote nl
        +:+ indent8 +:+ "Plan Intent: " +:+ intent_text
        +:+ nl +:+ indent8 +:+ "Steps Completed: "
        +:+ pretty (length (steps_completed execution_results))
        +:+ nl +:+ indent8 +:+ "Success: " +:+ success_text
        +:+ nl +:+ indent8
        +:+ nl +:+ indent8 +:+ "Step Results:"
        +:+ nl +:+ indent8 +:+ dumped
        +:+ nl +:+ indent8
        +:+ nl +:+ indent8 +:+ "Provide a clear, helpful response to the user:"
        +:+ nl +:+ indent8)).

(** [execute_plan(plan, user_input, user_id)]: the dict returned and the
    agent afterwards (its loader is the only attribute that changes). *)
Definition execute_plan (self : IntelligentAgent) (plan : json)
    (user_input user_id : string) : ExecutionResults * IntelligentAgent :=
  let execution_results :=
    {| plan_executed := plan; steps_completed := []; models_used := [];
       tools_used := []; response := EmptyString; success := true;
       error := None |} in
  match load_required_models self plan with
  | (Raised e, self1) => (execution_failed execution_results e user_input, self1)
  | (Returned required_models, self1) =>
      let execution_results :=
        {| plan_executed := plan; steps_completed := [];
           models_used := fst <$> required_models;
           tools_used := []; response := EmptyString; success := true;
           error := None |} in
      match (steps ← py_get plan "execution_steps" (JList []); py_iter steps) with
      | Raised e => (execution_failed execution_results e user_input, self1)
      | Returned steps =>
          match run_steps self1 steps plan user_input user_id required_models
                  execution_results with
          | (execution_results, Some e) =>
              (execution_failed execution_results e user_input, self1)
          | (execution_results, None) =>
              match generate_final_response self1 execution_results user_input plan with
              | Raised e => (execution_failed execution_results e user_input, self1)
              | Returned final_response =>
                  let execution_results :=
                    set_response execution_results final_response in
                  match cleanup_models self1 plan with
                  | (Raised e, self2) =>
                      (execution_failed execution_results e user_input, self2)
                  | (Returned _, self2) => (execution_results, self2)
                  end
              end
          end
      end
  end.
End Embedding.

(** ** Vocabulary of the specification *)

(** The steps a plan declares, the id of a step and what it depends on. *)
Definition plan_steps (plan : json) : list json :=
  match plan with
  | JDict d =>
      match dict_get d "execution_steps" with
      | Some (JList l) => l
      | _ => []
      end
  | _ => []
  end.

Definition step_id (step : json) : option json :=
  match step with
  | JDict d => dict_get d "step"
  | _ => None
  end.

Definition step_depends_on (step : json) : list json :=
  match step with
  | JDict d =>
      match dict_get d "depends_on" with
      | Some (JList l) => l
      | _ => []
      end
  | _ => []
  end.


(** [depends plan a b]: the step with id [a] lists [b] in its [depends_on]. *)
Definition depends (plan : json) (a b : json) : Prop :=
  ∃ step, step ∈ plan_steps plan ∧ step_id step = Some a
          ∧ b ∈ step_depends_on step.




(** A scan of a text of length [n] that stays within its bound and, when
    it succeeds, leaves less text than it was given. *)
Definition consumes {A} (n : nat) (r : scan A) : Prop :=
  match r with
  | Scanned _ rest => (String.length rest < n)%nat
  | Failed _ => True
  | Exhausted => False
  end.

(** The first balanced brace-delimited payload of a text, as the
    specification words the extraction: [close_braces depth s] is the text up
    to the brace that closes the payload when [depth] inner braces are
    open. *)
Fixpoint close_braces (depth : nat) (s : string) : option string :=
  match s with
  | EmptyString => None
  | String c r =>
      if Ascii.eqb c "{" then String c <$> close_braces (S depth) r
      else if Ascii.eqb c "}" then
        match depth with
        | O => Some (String c EmptyString)
        | S d => String c <$> close_braces d r
        end
      else String c <$> close_braces depth r
  end.

Fixpoint first_balanced_payload (s : string) : option string :=
  match s with
  | EmptyString => None
  | String c r =>
      if Ascii.eqb c "{" then
        match close_braces 0 r with
        | Some p => Some (String c p)
        | None => first_balanced_payload r
        end
      else first_balanced_payload r
  end.

(** The keyword table as the specification gives it. *)
Definition spec_keyword_table : list (string * list string) :=
  [ ("vision", ["image"; "photo"; "picture"; "visual"]);
    ("speech_input", ["speech"; "voice"; "listen"]);
    ("speech_output", ["speak"; "tts"]);
    ("video", ["video"; "clip"]);
    ("document", ["pdf"; "document"; "extract"]);
    ("audio_generation", ["music"; "sound"; "generate"]);
    ("embedding", ["search"; "similar"; "memory"]) ].

(** [needle] occurs in [hay]. *)
Definition occurs (needle hay : string) : Prop :=
  ∃ pre post, hay = pre +:+ needle +:+ post.

Fixpoint has_char (c : ascii) (s : string) : bool :=
  match s with
  | EmptyString => false
  | String d r => Ascii.eqb d c || has_char c r
  end.

Definition is_dict (v : json) : bool :=
  match v with
  | JDict _ => true
  | _ => false
  end.

(** A value an f-string renders without raising; every [str] is one. *)
Definition formattable `{Runtime} (v : json) : Prop :=
  ∃ text, py_format v = Returned text.

(** A plan of the shape the planner is asked for: an object whose
    ["execution_steps"] is a list of objects, whose
    ["additional_capabilities"], when present, can be iterated (a list, a
    string or an object), and whose capabilities, the primary and the
    additional ones, can be rendered in a log message. *)
Definition plan_shape `{Runtime} (plan : json) (steps : list json) : Prop :=
  ∃ d, plan = JDict d
       ∧ default (JList []) (dict_get d "execution_steps") = JList steps
       ∧ Forall (fun step => is_dict step = true) steps
       ∧ ∃ more, py_iter (default (JList []) (dict_get d "additional_capabilities"))
                 = Returned more
                 ∧ Forall formattable
                     (default JNull (dict_get d "primary_capability") :: more).

(** The models [execute_plan] obtains for a plan: what
    [load_required_models] returns. *)
Definition required_models `{Runtime} (self : IntelligentAgent) (plan : json)
  : list (string * Model) :=
  match (load_required_models self plan).1 with
  | Returned models => models
  | Raised _ => []
  end.

(** The branch [execute_step] takes for a step: its tool when it has one,
    else the handler of its capability. *)
Definition step_dispatch `{Runtime} (self : IntelligentAgent)
    (tool capability action : json) (user_input : string) (plan : json)
    (models : list (string * Model)) : outcome string :=
  if truthy tool then use_tool self tool user_input plan
  else if eq_str capability "vision"
  then Returned (process_vision user_input (dict_get models "vision"))
  else if eq_str capability "speech_input"
  then Returned (process_speech_input user_input (dict_get models "speech_input"))
  else if eq_str capability "speech_output"
  then Returned (process_speech_output user_input (dict_get models "speech_output"))
  else if eq_str capability "embedding"
  then Returned (process_embedding user_input (dict_get models "embedding"))
  else process_with_main_brain self action user_input plan.

(** The result [execute_step] records for a step that is an object: a
    success that carries what the branch taken returned, or a failure that
    carries the exception it raised. *)
Definition step_result (d : list (string * json)) (dispatched : outcome string)
  : json :=
  match dispatched with
  | Returned result =>
      JDict [ ("step_number", default (JInt 0) (dict_get d "step"));
              ("action", default (JStr "") (dict_get d "action"));
              ("capability", default (JStr "text") (dict_get d "capability"));
              ("success", JBool true);
              ("result", JStr result);
              ("tool_used", default JNull (dict_get d "tool")) ]
  | Raised e =>
      JDict [ ("step_number", default (JInt 0) (dict_get d "step"));
              ("action", default (JStr "") (dict_get d "action"));
              ("success", JBool false);
              ("error", JStr (exn_str e));
              ("result", JStr "") ]
  end.

(** What attempting a step yields: the record of running the branch that
    the step's tool or capability selects. *)
Definition attempt `{Runtime} (self : IntelligentAgent) (step plan : json)
    (user_input : string) (models : list (string * Model)) : json :=
  match step with
  | JDict d =>
      step_result d
        (step_dispatch self (default JNull (dict_get d "tool"))
           (default (JStr "text") (dict_get d "capability"))
           (default (JStr "") (dict_get d "action")) user_input plan models)
  | _ => JNull
  end.

(** The intent the final prompt renders: [plan.get('intent', '')]. *)
Definition plan_intent (plan : json) : json :=
  match plan with
  | JDict d => default (JStr "") (dict_get d "intent")
  | _ => JStr ""
  end.

(** What [process_vision], [process_speech_input], [process_speech_output]
    and [process_embedding] answer without a model. *)
Definition not_available : list (string * string) :=
  [ ("vision", "Vision capability not available");
    ("speech_input", "Speech input capability not available");
    ("speech_output", "Speech output capability not available");
    ("embedding", "Embedding capability not available") ].

(** The tool a step names: [step.get("tool")]. *)
Definition step_tool (step : json) : json :=
  match step with
  | JDict d => default JNull (dict_get d "tool")
  | _ => JNull
  end.


(** The ["success"] entry of a step result. *)
Definition step_success (step_result : json) : option json :=
  match step_result with
  | JDict d => dict_get d "success"
  | _ => None
  end.

Definition step_number (step_result : json) : option json :=
  match step_result with
  | JDict d => dict_get d "step_number"
  | _ => None
  end.

(** The text between an opening and a closing brace, braces included. *)
Definition brace_span (inner : string) : string :=
  String "{" (inner +:+ "}").

(** What a parser returns for a span: the decoded value, or [fallback] when
    decoding raises. *)
Definition decoded_or (fallback : json) (span : string) : json :=
  match json_loads span with
  | Returned plan => plan
  | Raised _ => fallback
  end.


(** ** A runtime and an agent for the examples *)

Fixpoint nesting (v : json) : nat :=
  match v with
  | JList l => S (foldr (fun x n => Nat.max (nesting x) n) O l)
  | JDict d => S (foldr (fun kv n => Nat.max (let '(_, x) := kv in nesting x) n) O d)
  | _ => O
  end.

Definition quoted (s : string) : string :=
  String dquote (s +:+ String dquote EmptyString).

Fixpoint json_text (v : json) : string :=
  match v with
  | JNull => "null"
  | JBool true => "true"
  | JBool false => "false"
  | JInt z => pretty z
  | JFloat m e => pretty m +:+ "e" +:+ pretty e
  | JNaN => "NaN"
  | JInfinity negative => if negative then "-Infinity" else "Infinity"
  | JStr s => quoted s
  | JList l =>
      "[" +:+ foldr (fun x t => json_text x +:+ ", " +:+ t) "]" l
  | JDict d =>
      "{" +:+ foldr (fun kv t =>
                       (let '(k, x) := kv in quoted k +:+ ": " +:+ json_text x)
                       +:+ ", " +:+ t) "}" d
  end.

(** No model library is installed (text models are placeholders, every
    other model fails to load); the encoder and the renderer give up beyond
    [limit] levels of nesting, as CPython's do at the interpreter's recursion
    limit, and the text they produce is only indicative. *)
Definition example_runtime (limit : nat) : Runtime :=
  {| Handle := unit;
     from_pretrained := fun _ _ => None;
     TORCH_AVAILABLE := false;
     MODEL_LOADER_AVAILABLE := true;
     json_dumps := fun _ v =>
       if decide (nesting v ≤ limit)%nat then Returned (json_text v)
       else Raised (RecursionError
                      "maximum recursion depth exceeded while encoding a JSON object");
     format_value := fun v =>
       if decide (nesting v ≤ limit)%nat then Returned (json_text v)
       else Raised (RecursionError
                      "maximum recursion depth exceeded while getting the repr of an object") |}.

Definition example_config : json :=
  JDict
    [ ("model", JDict [ ("primary", JStr "deepseek-r1") ]);
      ("models",
        JDict
          [ ("deepseek-r1",
              JDict [ ("enabled", JBool true);
                      ("model", JStr "deepseek-ai/DeepSeek-R1");
                      ("use_case", JStr "general") ]);
            ("text",
              JDict [ ("enabled", JBool true);
                      ("model", JStr "deepseek-ai/DeepSeek-R1");
                      ("use_case", JStr "general") ]);
            ("vision",
              JDict [ ("enabled", JBool true);
                      ("model", JStr "Salesforce/blip-image-captioning-base");
                      ("use_case", JStr "vision") ]) ]) ].

(** The agent as constructed: the placeholder registry, and a loader that
    has initialised its main brain from [example_config]. *)
Definition example_agent (limit : nat)
  : IntelligentAgent (H := example_runtime limit) :=
  {| tools := PlaceholderToolRegistry;
     model_loader :=
       Some (initialize_main_brain (H := example_runtime limit)
               {| config := example_config; loaded_models := ∅;
                  main_brain := None |}) |}.

(** What [execute_plan] returns for the example agent. *)
Definition example_run (limit : nat) (plan : json) (user_input : string)
  : ExecutionResults :=
  (execute_plan (H := example_runtime limit) (example_agent limit) plan
     user_input "default").1.

(** The plan of the specification's scenario: one vision step. *)
Definition vision_plan : json :=
  JDict
    [ ("primary_capability", JStr "vision");
      ("execution_steps",
        JList [ JDict [ ("step", JInt 1); ("action", JStr "describe image");
                        ("capability", JStr "vision");
                        ("depends_on", JList []) ] ]) ].

(** Step 2 depends on step 1. *)
Definition dependent_plan : json :=
  JDict
    [ ("intent", JStr "summarise and index");
      ("execution_steps",
        JList [ JDict [ ("step", JInt 1); ("action", JStr "summarise");
                        ("capability", JStr "text");
                        ("depends_on", JList []) ];
                JDict [ ("step", JInt 2); ("action", JStr "index the summary");
                        ("capability", JStr "embedding");
                        ("depends_on", JList [JInt 1]) ] ]) ].

(** Step 1 comes first in the list and depends on step 2. *)
Definition backward_plan : json :=
  JDict
    [ ("execution_steps",
        JList [ JDict [ ("step", JInt 1); ("action", JStr "report");
                        ("depends_on", JList [JInt 2]) ];
                JDict [ ("step", JInt 2); ("action", JStr "collect");
                        ("depends_on", JList []) ] ]) ].

(** Two independent steps, listed with the larger id first. *)
Definition unordered_plan : json :=
  JDict
    [ ("execution_steps",
        JList [ JDict [ ("step", JInt 2); ("action", JStr "greet");
                        ("depends_on", JList []) ];
                JDict [ ("step", JInt 1); ("action", JStr "thank");
                        ("depends_on", JList []) ] ]) ].

(** A list nested deeper than any encoder descends. *)
Definition deep_value : json := N.iter 100000 (fun v => JList [v]) JNull.

(** The two steps of [dependent_plan], in a plan that carries [deep_value]:
    no encoder serialises the plan. *)
Definition deep_plan : json :=
  JDict
    [ ("intent", JStr "summarise and index");
      ("context", deep_value);
      ("execution_steps",
        JList [ JDict [ ("step", JInt 1); ("action", JStr "summarise");
                        ("capability", JStr "text");
                        ("depends_on", JList []) ];
                JDict [ ("step", JInt 2); ("action", JStr "index the summary");
                        ("capability", JStr "embedding");
                        ("depends_on", JList [JInt 1]) ] ]) ].

(** The same plan with a number between its two steps. *)
Definition interrupted_plan : json :=
  JDict
    [ ("intent", JStr "summarise and index");
      ("context", deep_value);
      ("execution_steps",
        JList [ JDict [ ("step", JInt 1); ("action", JStr "summarise");
                        ("capability", JStr "text");
                        ("depends_on", JList []) ];
                JInt 5;
                JDict [ ("step", JInt 2); ("action", JStr "index the summary");
                        ("capability", JStr "embedding");
                        ("depends_on", JList [JInt 1]) ] ]) ].

(** A plan whose ["additional_capabilities"] is [None]. *)
Definition null_capabilities_plan : json :=
  JDict
    [ ("primary_capability", JStr "vision");
      ("additional_capabilities", JNull);
      ("execution_steps",
        JList [ JDict [ ("step", JInt 1); ("action", JStr "describe image");
                        ("capability", JStr "vision");
                        ("depends_on", JList []) ] ]) ].

(** The second element of the step list is a number. *)
Definition malformed_plan : json :=
  JDict
    [ ("intent", JStr "greet");
      ("execution_steps",
        JList [ JDict [ ("step", JInt 1); ("action", JStr "greet") ];
                JInt 5 ]) ].

(** The loader of the example agent, and the placeholder that stands for
    each of its text models. *)
Definition example_loader (limit : nat)
  : DynamicModelLoader (H := example_runtime limit) :=
  initialize_main_brain (H := example_runtime limit)
    {| config := example_config; loaded_models := ∅; main_brain := None |}.

Definition example_text_model (limit : nat) : Model (H := example_runtime limit) :=
  {| model_type := "text";
     model_config :=
       Some (JDict [ ("enabled", JBool true);
                     ("model", JStr "deepseek-ai/DeepSeek-R1");
                     ("use_case", JStr "general") ]);
     model_handle := None |}.




(** Three steps, the first and the last of which name a tool. *)
Definition tool_plan : json :=
  JDict
    [ ("intent", JStr "look it up");
      ("execution_steps",
        JList [ JDict [ ("step", JInt 1); ("action", JStr "search");
                        ("tool", JStr "web_search") ];
                JDict [ ("step", JInt 2); ("action", JStr "summarise");
                        ("capability", JStr "text") ];
                JDict [ ("step", JInt 3); ("action", JStr "save");
                        ("tool", JStr "file_writer") ] ]) ].

(** ** Plan parsing *)

Lemma parse_execution_plan_cases (response : string) :
  parse_execution_plan response =
    match regex_search response with
    | Some group =>
        match json_loads group with
        | Returned plan => Returned plan
        | Raised _ => Returned (create_fallback_plan "")
        end
    | None => Returned (create_fallback_plan "")
    end.
Proof.
  unfold parse_execution_plan, try_except.
  destruct (regex_search response) as [group|]; [|done].
  by destruct (json_loads group).
Qed.




(** *** The span the regular expression matches *)

Section Text.
#[local] Arguments Ascii.eqb : simpl never.

Lemma append_cons (c : ascii) (a b : string) :
  String c a +:+ b = String c (a +:+ b).
Proof. reflexivity. Qed.

Lemma append_assoc (a b c : string) : (a +:+ b) +:+ c = a +:+ (b +:+ c).
Proof.
  induction a as [|x a IH]; [done|]. by rewrite !append_cons, IH.
Qed.

Lemma has_char_cons (c d : ascii) (s : string) :
  has_char c (String d s) = Ascii.eqb d c || has_char c s.
Proof. reflexivity. Qed.

Lemma from_first_open_app (pre rest : string) :
  has_char "{" pre = false →
  from_first_open (pre +:+ String "{" rest) = Some (String "{" rest).
Proof.
  induction pre as [|c pre IH]; [done|].
  rewrite has_char_cons, append_cons. intros [Hc Hpre]%orb_false_elim.
  simpl. rewrite Hc. auto.
Qed.

Lemma upto_last_close_none (s : string) :
  has_char "}" s = false → upto_last_close s = None.
Proof.
  induction s as [|c s IH]; [done|].
  rewrite has_char_cons. intros [Hc Hs]%orb_false_elim.
  simpl. by rewrite (IH Hs), Hc.
Qed.

Lemma upto_last_close_app (inner post : string) :
  has_char "}" post = false →
  upto_last_close (inner +:+ String "}" post) = Some (inner +:+ "}").
Proof.
  intros Hpost. induction inner as [|c inner IH].
  - simpl. by rewrite (upto_last_close_none _ Hpost).
  - rewrite !append_cons. simpl. by rewrite IH.
Qed.

Lemma regex_search_span (pre inner post : string) :
  has_char "{" pre = false → has_char "}" post = false →
  regex_search (pre +:+ brace_span inner +:+ post) = Some (brace_span inner).
Proof.
  intros Hpre Hpost. unfold regex_search, brace_span.
  rewrite append_cons, (from_first_open_app _ _ Hpre), append_assoc.
  by rewrite (upto_last_close_app _ _ Hpost).
Qed.

Lemma from_first_open_inv (s t : string) :
  from_first_open s = Some t →
  ∃ pre rest, s = pre +:+ t ∧ t = String "{" rest ∧ has_char "{" pre = false.
Proof.
  induction s as [|c s IH]; simpl; [done|].
  destruct (Ascii.eqb c "{") eqn:Hc.
  - intros [= <-]. apply Ascii.eqb_eq in Hc as ->.
    by exists EmptyString, s.
  - intros (pre & rest & -> & -> & Hpre)%IH.
    exists (String c pre), rest. by rewrite has_char_cons, Hc, Hpre.
Qed.

Lemma upto_last_close_inv (s u : string) :
  upto_last_close s = Some u →
  ∃ inner post, s = u +:+ post ∧ u = inner +:+ "}" ∧ has_char "}" post = false.
Proof.
  revert u. induction s as [|c s IH]; simpl; [done|]. intros u.
  destruct (upto_last_close s) as [v|] eqn:Hs.
  - intros [= <-]. destruct (IH v eq_refl) as (inner & post & -> & -> & Hpost).
    by exists (String c inner), post.
  - destruct (Ascii.eqb c "}") eqn:Hc; [|done].
    intros [= <-]. apply Ascii.eqb_eq in Hc as ->.
    exists EmptyString, s. split_and!; [done..|].
    clear IH. induction s as [|d s IH]; [done|].
    simpl in Hs. rewrite has_char_cons.
    destruct (upto_last_close s); [done|].
    destruct (Ascii.eqb d "}"); [done|]. by rewrite IH.
Qed.

(** [regex_search] finds a span exactly when the text has a closing brace
    after its first opening brace, and the span is the one between them. *)
Lemma regex_search_inv (s m : string) :
  regex_search s = Some m →
  ∃ pre inner post,
    s = pre +:+ m +:+ post ∧ m = brace_span inner
    ∧ has_char "{" pre = false ∧ has_char "}" post = false.
Proof.
  unfold regex_search.
  destruct (from_first_open s) as [t|] eqn:Ht; [|done].
  destruct (from_first_open_inv _ _ Ht) as (pre & rest & -> & -> & Hpre).
  destruct (upto_last_close rest) as [u|] eqn:Hu; [|done].
  intros [= <-].
  destruct (upto_last_close_inv _ _ Hu) as (inner & post & -> & -> & Hpost).
  exists pre, inner, post. split_and!; [|done..].
  by rewrite append_cons.
Qed.

End Text.

(** *** Claims about [parse_execution_plan] *)





(** C8, as the code has it.  In a response whose first opening brace is
    followed by a closing brace, the span that is decoded runs from the first
    opening brace to the last closing brace of the response; when decoding
    that span raises, [parse_execution_plan] returns the fallback plan and
    [parse_task_analysis] the keyword classification of the response. *)
Theorem structured_extraction_greedy (pre inner post : string) :
  has_char "{" pre = false → has_char "}" post = false →
  regex_search (pre +:+ brace_span inner +:+ post) = Some (brace_span inner)
  ∧ parse_execution_plan (pre +:+ brace_span inner +:+ post)
    = Returned (decoded_or (create_fallback_plan "") (brace_span inner))
  ∧ parse_task_analysis (pre +:+ brace_span inner +:+ post)
    = Returned (decoded_or (fallback_parse (pre +:+ brace_span inner +:+ post))
                           (brace_span inner)).
Proof.
  intros Hpre Hpost.
  pose proof (regex_search_span pre inner post Hpre Hpost) as Hspan.
  split_and!; [done| |].
  - rewrite parse_execution_plan_cases, Hspan. unfold decoded_or.
    by destruct (json_loads _).
  - unfold parse_task_analysis, try_except, decoded_or. rewrite Hspan.
    by destruct (json_loads _).
Qed.

Lemma structured_extraction_greedy_witness :
  regex_search ("plan: " +:+ brace_span (q "'a': {'b': 1}, 'c': {}") +:+ " done")
    = Some (brace_span (q "'a': {'b': 1}, 'c': {}"))
  ∧ parse_execution_plan
      ("plan: " +:+ brace_span (q "'a': {'b': 1}, 'c': {}") +:+ " done")
    = Returned (decoded_or (create_fallback_plan "")
                  (brace_span (q "'a': {'b': 1}, 'c': {}")))
  ∧ parse_task_analysis
      ("plan: " +:+ brace_span (q "'a': {'b': 1}, 'c': {}") +:+ " done")
    = Returned (decoded_or
                  (fallback_parse
                     ("plan: " +:+ brace_span (q "'a': {'b': 1}, 'c': {}") +:+ " done"))
                  (brace_span (q "'a': {'b': 1}, 'c': {}"))).
Proof.
  apply (structured_extraction_greedy "plan: " (q "'a': {'b': 1}, 'c': {}") " done");
    reflexivity.
Defined.

(** C8 fails as stated: the first balanced payload of this response decodes
    to a plan, yet the span that is decoded reaches to the last closing brace,
    does not decode, and the fallback plan is returned. *)
Lemma first_balanced_payload_not_decoded :
  ∃ response payload plan,
    response = q "{'intent': 'greet', 'execution_steps': []} (use {} for no arguments)"
    ∧ first_balanced_payload response = Some payload
    ∧ json_loads payload = Returned plan
    ∧ plan = JDict [("intent", JStr "greet"); ("execution_steps", JList [])]
    ∧ regex_search response
      = Some (q "{'intent': 'greet', 'execution_steps': []} (use {}")
    ∧ parse_execution_plan response = Returned (create_fallback_plan "").
Proof.
  eexists _, _, _. split_and!; [reflexivity|vm_compute; reflexivity..].
Qed.

(** *** Keyword classification *)

Section Keywords.
#[local] Arguments Ascii.eqb : simpl never.

Lemma starts_with_prefix (p s : string) :
  starts_with p s = true ↔ ∃ post, s = p +:+ post.
Proof.
  revert s. induction p as [|a p IH]; intros s.
  - split; [by exists s|done].
  - destruct s as [|b s]; simpl.
    + split; [done|]. by intros [post ?].
    + rewrite andb_true_iff, Ascii.eqb_eq, IH. split.
      * intros [-> [post ->]]. by exists post.
      * intros [post [= -> ->]]. split; [done|]. by exists post.
Qed.

Lemma str_in_occurs (needle hay : string) :
  str_in needle hay = true ↔ occurs needle hay.
Proof.
  induction hay as [|c hay IH].
  - simpl. rewrite orb_false_r, starts_with_prefix. split.
    + intros [post ->]. by exists EmptyString, post.
    + intros ([|x pre] & post & Heq); [by exists post|done].
  - change (str_in needle (String c hay))
      with (starts_with needle (String c hay) || str_in needle hay).
    rewrite orb_true_iff, IH, starts_with_prefix. split.
    + intros [[post ->] | (pre & post & ->)].
      * by exists EmptyString, post.
      * by exists (String c pre), post.
    + intros ([|x pre] & post & Heq).
      * left. by exists post.
      * right. injection Heq as -> ->. by exists pre, post.
Qed.

Lemma elem_of_detect (table : list (string * list string))
    (text capability : string) :
  capability ∈ detect table text ↔
  ∃ keywords keyword, (capability, keywords) ∈ table ∧ keyword ∈ keywords
                      ∧ occurs keyword text.
Proof.
  unfold detect. rewrite list_elem_of_fmap. split.
  - intros ([cap keywords] & -> & [Hany Hin]%list_elem_of_filter).
    apply Is_true_true, existsb_exists in Hany as (keyword & Hk & Hocc).
    exists keywords, keyword. split_and!; [done| |by apply str_in_occurs].
    by apply list_elem_of_In.
  - intros (keywords & keyword & Hin & Hk & Hocc).
    exists (capability, keywords). split; [done|].
    apply list_elem_of_filter. split; [|done].
    apply Is_true_true, existsb_exists. exists keyword.
    split; [by apply list_elem_of_In|by apply str_in_occurs].
Qed.

End Keywords.

(** C6, as the code has it.  [fallback_parse] lowers the response and
    matches it against the table [capabilities] of the code, which has more
    keywords than the table of the specification: a capability is detected
    exactly when one of its keywords occurs in the lowered response, and the
    detected capabilities keep the order of the table.  The first of them is
    the primary capability ("text" when there is none), the others are the
    additional capabilities, and the confidence is 0.7 when one was detected
    and 0.3 otherwise: nothing else is returned when nothing matches. *)
Theorem fallback_parse_table (response : string) :
  (∀ capability,
     capability ∈ detect capabilities (lower response) ↔
     ∃ keywords keyword, (capability, keywords) ∈ capabilities
                         ∧ keyword ∈ keywords
                         ∧ occurs keyword (lower response))
  ∧ sublist (detect capabilities (lower response)) (fst <$> capabilities)
  ∧ fallback_parse response =
      JDict
        [ ("primary_capability",
            JStr (hd "text" (detect capabilities (lower response))));
          ("additional_capabilities",
            JList (JStr <$> tail (detect capabilities (lower response))));
          ("reasoning", JStr "Keyword-based detection");
          ("confidence",
            if decide (detect capabilities (lower response) = [])
            then JFloat 3 (-1) else JFloat 7 (-1)) ].
Proof.
  split_and!.
  - intros capability. apply elem_of_detect.
  - unfold detect. apply fmap_sublist, sublist_filter.
  - unfold fallback_parse.
    destruct (detect capabilities (lower response)) as [|d [|d' l]]; reflexivity.
Qed.

(** C6 fails as stated: "see" and "look" are keywords of the code's table
    only, so a response the specification's table does not match is
    classified as vision; and a response that matches nothing is given
    confidence 0.3 with the keyword classifier's own result, not the fallback
    plan. *)
Lemma fallback_parse_differs_from_spec_table :
  detect spec_keyword_table (lower "Look at this and tell me what you see") = []
  ∧ fallback_parse "Look at this and tell me what you see" =
      JDict [ ("primary_capability", JStr "vision");
              ("additional_capabilities", JList []);
              ("reasoning", JStr "Keyword-based detection");
              ("confidence", JFloat 7 (-1)) ]
  ∧ detect capabilities (lower "What's today's weather?") = []
  ∧ fallback_parse "What's today's weather?" =
      JDict [ ("primary_capability", JStr "text");
              ("additional_capabilities", JList []);
              ("reasoning", JStr "Keyword-based detection");
              ("confidence", JFloat 3 (-1)) ]
  ∧ parse_task_analysis "What's today's weather?"
    = Returned (fallback_parse "What's today's weather?")
  ∧ fallback_parse "What's today's weather?" ≠ create_fallback_plan "".
Proof. split_and!; [vm_compute; reflexivity..|discriminate]. Qed.

(** ** Model retention *)

Section Retention.
Context `{Runtime}.

Lemma foldl_delete_lookup (names : list string) (m : gmap string Model)
    (name : string) :
  foldl (fun m n => delete n m) m names !! name
  = if decide (name ∈ names) then None else m !! name.
Proof.
  revert m. induction names as [|n names IH]; intros m.
  - case_decide as Hin; [by apply elem_of_nil in Hin|done].
  - change (foldl (fun m n => delete n m) (delete n m) names !! name
            = if decide (name ∈ n :: names) then None else m !! name).
    rewrite IH.
    destruct (decide (name ∈ names)) as [Hin|Hnotin].
    + case_decide as Hcons; [done|]. exfalso. apply Hcons. by right.
    + destruct (decide (name = n)) as [->|Hne].
      * rewrite lookup_delete_eq.
        case_decide as Hcons; [done|]. exfalso. apply Hcons. by left.
      * rewrite lookup_delete_ne by done.
        case_decide as Hcons; [|done].
        by apply elem_of_cons in Hcons as [?|?].
Qed.

(** What [unload_unused_models] leaves: the models whose name is in the
    keep list it works with. *)
Lemma unload_unused_models_lookup (self : DynamicModelLoader)
    (keep_models : option (list string)) (name : string) :
  loaded_models (unload_unused_models self keep_models) !! name
  = if decide (name ∈ keep_or_default keep_models)
    then loaded_models self !! name else None.
Proof.
  unfold unload_unused_models, set_loaded_models.
  cbn [loaded_models]. rewrite foldl_delete_lookup.
  destruct (decide (name ∈ keep_or_default keep_models)) as [Hkeep|Hdrop].
  - case_decide as Hin; [|done].
    by apply list_elem_of_filter in Hin as [? _].
  - destruct (loaded_models self !! name) as [model|] eqn:Hname.
    + case_decide as Hin; [done|]. exfalso. apply Hin.
      apply list_elem_of_filter. split; [done|].
      apply list_elem_of_fmap. exists (name, model). split; [done|].
      by apply elem_of_map_to_list.
    + by case_decide.
Qed.

(** Every model that remains was kept by name. *)
Lemma unload_unused_models_remaining (self : DynamicModelLoader)
    (keep_models : option (list string)) (name : string) (model : Model) :
  loaded_models (unload_unused_models self keep_models) !! name = Some model →
  name ∈ keep_or_default keep_models ∧ loaded_models self !! name = Some model.
Proof.
  rewrite unload_unused_models_lookup. by destruct (decide _).
Qed.

(** C10.  With an empty keep list [unload_unused_models] works with the
    default list ["deepseek-r1"], as it does without a keep list: the two
    calls give the same loader, in which the model named "deepseek-r1" is
    what it was before and no other model is loaded. *)
Theorem unload_unused_models_empty_keep (self : DynamicModelLoader) :
  unload_unused_models self (Some []) = unload_unused_models self None
  ∧ keep_or_default (Some []) = ["deepseek-r1"]
  ∧ loaded_models (unload_unused_models self (Some [])) !! "deepseek-r1"
    = loaded_models self !! "deepseek-r1"
  ∧ ∀ name, name ≠ "deepseek-r1" →
            loaded_models (unload_unused_models self (Some [])) !! name = None.
Proof.
  split_and!; [reflexivity..| |].
  - rewrite unload_unused_models_lookup.
    case_decide as Hin; [done|]. exfalso. apply Hin. apply list_elem_of_here.
  - intros name Hname. rewrite unload_unused_models_lookup.
    case_decide as Hin; [|done]. by apply list_elem_of_singleton in Hin.
Qed.
End Retention.

(** C5: the code does not pin the main brain.  A loader that holds its
    main brain (loaded as "deepseek-r1") and a second model "text" is asked to
    keep ["text"]: the main brain is unloaded. *)
Theorem unload_unused_models_evicts_main_brain :
  ∃ loader brain,
    loader
    = (load_model (H := example_runtime 1000)
         (initialize_main_brain
            {| config := example_config; loaded_models := ∅;
               main_brain := None |})
         (JStr "text") false).2
    ∧ main_brain loader = Some brain
    ∧ loaded_models loader !! "deepseek-r1" = Some brain
    ∧ is_Some (loaded_models loader !! "text")
    ∧ loaded_models (unload_unused_models loader (Some ["text"])) !! "deepseek-r1"
      = None
    ∧ is_Some (loaded_models (unload_unused_models loader (Some ["text"])) !! "text").
Proof.
  eexists _, _. split; [reflexivity|].
  split_and!.
  - vm_compute. reflexivity.
  - vm_compute. reflexivity.
  - vm_compute. by eexists.
  - vm_compute. reflexivity.
  - vm_compute. by eexists.
Qed.

(** ** Step execution *)

Section Execution.
Context `{Runtime}.
Implicit Types (self : IntelligentAgent) (plan step : json).
Implicit Types (d : list (string * json)) (models : list (string * Model)).

(** [execute_step] on a step that is an object: the result of the branch
    taken becomes a successful step result, an exception raised in it a
    failed one. *)
Lemma execute_step_object self d plan ui uid models :
  execute_step self (JDict d) plan ui uid models =
    Returned
      (match step_dispatch self (default JNull (dict_get d "tool"))
               (default (JStr "text") (dict_get d "capability"))
               (default (JStr "") (dict_get d "action")) ui plan models with
       | Returned result =>
           JDict [ ("step_number", default (JInt 0) (dict_get d "step"));
                   ("action", default (JStr "") (dict_get d "action"));
                   ("capability", default (JStr "text") (dict_get d "capability"));
                   ("success", JBool true);
                   ("result", JStr result);
                   ("tool_used", default JNull (dict_get d "tool")) ]
       | Raised e =>
           JDict [ ("step_number", default (JInt 0) (dict_get d "step"));
                   ("action", default (JStr "") (dict_get d "action"));
                   ("success", JBool false);
                   ("error", JStr (exn_str e));
                   ("result", JStr "") ]
       end).
Proof.
  unfold execute_step, step_dispatch. cbn.
  repeat (case_match; try done).
Qed.

Lemma execute_step_attempt self d plan ui uid models :
  execute_step self (JDict d) plan ui uid models
  = Returned (attempt self (JDict d) plan ui models).
Proof. apply execute_step_object. Qed.

(** On anything else the handler itself raises, and so does [execute_step]. *)
Lemma execute_step_not_object self step plan ui uid models :
  is_dict step = false →
  execute_step self step plan ui uid models
  = Raised (AttributeError
              ("'" +:+ type_name step +:+ "' object has no attribute 'get'")).
Proof. by destruct step. Qed.

Lemma step_number_executed self d plan ui uid models result :
  execute_step self (JDict d) plan ui uid models = Returned result →
  step_number result = Some (default (JInt 0) (dict_get d "step")).
Proof.
  rewrite execute_step_object. intros [= <-]. by destruct (step_dispatch _ _ _ _ _ _ _).
Qed.

(** The loop over steps that are all objects never stops early: it records
    the result of each step, in order. *)
Lemma run_steps_objects self steps plan ui uid models r :
  Forall (fun step => is_dict step = true) steps →
  ∃ results,
    Forall2 (fun step result =>
               execute_step self step plan ui uid models = Returned result)
            steps results
    ∧ ∃ r', run_steps self steps plan ui uid models r = (r', None)
            ∧ steps_completed r' = steps_completed r ++ results
            ∧ success r' = success r ∧ error r' = error r
            ∧ plan_executed r' = plan_executed r
            ∧ models_used r' = models_used r.
Proof.
  intros Hsteps. revert r.
  induction Hsteps as [|step steps Hstep _ IH]; intros r.
  - exists []. split; [constructor|]. exists r. by rewrite app_nil_r.
  - destruct step as [| | | | | | | |d]; try done.
    destruct (execute_step self (JDict d) plan ui uid models) as [result|e] eqn:Hexec;
      [|by rewrite execute_step_object in Hexec].
    destruct (IH (record_step r result)) as (results & Hall & r' & Hrun & Hdone & ?).
    exists (result :: results). split; [by constructor|].
    exists r'. simpl. rewrite Hexec. split; [done|].
    rewrite Hdone. simpl. by rewrite <- app_assoc.
Qed.

(** The loop of [load_required_models] runs to its end when every
    capability can be rendered for the warning of its [except] clause. *)
Lemma load_each_returns (capabilities : list json)
    (loader : DynamicModelLoader) (required : list (string * Model)) :
  Forall formattable capabilities →
  ∃ models loader',
    load_each loader capabilities required = (Returned models, loader').
Proof.
  intros Hall. revert loader required.
  induction Hall as [|capability rest [text Htext] _ IH]; intros loader required;
    [by eexists _, _|].
  cbn [load_each].
  destruct (truthy capability && negb (eq_str capability "tools")); [|apply IH].
  destruct (load_model loader capability false) as [[[model|]|e] loader'];
    [|apply IH|rewrite Htext; apply IH].
  destruct capability; apply IH.
Qed.

Lemma load_required_models_shape self plan steps :
  plan_shape plan steps →
  ∃ models self1, load_required_models self plan = (Returned models, self1).
Proof.
  intros (d & -> & _ & _ & more & Hmore & Hformat).
  unfold load_required_models.
  destruct MODEL_LOADER_AVAILABLE; [|by eexists _, _].
  destruct (model_loader self) as [loader|]; [|by eexists _, _].
  cbn [py_get mbind outcome_bind]. rewrite Hmore. cbn [mbind outcome_bind].
  destruct (load_each_returns _ loader [] Hformat) as (models & loader' & ->).
  by eexists _, _.
Qed.

Lemma cleanup_models_object self d :
  ∃ self', cleanup_models self (JDict d) = (Returned (), self').
Proof.
  unfold cleanup_models.
  destruct MODEL_LOADER_AVAILABLE; [|by eexists].
  destruct (model_loader self); by eexists.
Qed.

(** [execute_plan] on a plan of the expected shape: every step is executed,
    in the order of the list, and its result recorded; the run fails only
    when the intent cannot be rendered or the results cannot be serialised
    for the final response. *)
Lemma execute_plan_shape self plan steps ui uid :
  plan_shape plan steps →
  ∃ models self1,
    load_required_models self plan = (Returned models, self1)
    ∧ Forall2 (fun step result =>
                 execute_step self1 step plan ui uid models = Returned result)
              steps (steps_completed (execute_plan self plan ui uid).1)
    ∧ (success (execute_plan self plan ui uid).1 = true ↔
       formattable (plan_intent plan)
       ∧ ∃ text, json_dumps (Some 2%nat)
                   (JList (steps_completed (execute_plan self plan ui uid).1))
                 = Returned text)
    ∧ (success (execute_plan self plan ui uid).1 = true ↔
       error (execute_plan self plan ui uid).1 = None).
Proof.
  intros Hshape.
  destruct (load_required_models_shape self plan steps Hshape)
    as (models & self1 & Hload).
  exists models, self1. split; [done|].
  destruct Hshape as (d & -> & Hsteps & Hobjects & _).
  unfold execute_plan. rewrite Hload. cbn [py_get mbind outcome_bind].
  rewrite Hsteps. cbn [py_iter mbind outcome_bind].
  match goal with
  | |- context [run_steps self1 steps ?plan ui uid models ?r] =>
      destruct (run_steps_objects self1 steps plan ui uid models r Hobjects)
        as (results & Hall & r' & -> & Hdone & Hsuccess & Herror & _)
  end.
  cbn in Hdone, Hsuccess, Herror. subst results.
  unfold generate_final_response, formattable, plan_intent.
  cbn [py_get mbind outcome_bind].
  destruct (py_format (default (JStr "") (dict_get d "intent")))
    as [intent_text|e] eqn:Hintent; cbn [mbind outcome_bind].
  - rewrite Hsuccess. cbn [py_format mbind outcome_bind].
    destruct (json_dumps (Some 2%nat) (JList (steps_completed r')))
      as [text|e] eqn:Hdump.
    + destruct (cleanup_models_object self1 d) as [self2 ->].
      cbn. rewrite Hsuccess, Herror, Hdump. split_and!; [done| |done].
      split; [|done]. intros _. split; by eexists.
    + cbn. rewrite Hdump. split_and!; [done| |done].
      split; [done|]. by intros [_ [text ?]].
  - cbn. split_and!; [done| |done].
    split; [done|]. by intros [[text ?] _].
Qed.

Lemma required_models_loaded self plan models self1 :
  load_required_models self plan = (Returned models, self1) →
  required_models self plan = models
  ∧ (load_required_models self plan).2 = self1.
Proof. unfold required_models. by intros ->. Qed.

Lemma step_numbers_in_order self plan ui uid models steps results :
  Forall2 (fun step result =>
             execute_step self step plan ui uid models = Returned result)
          steps results →
  step_number <$> results
  = (fun step => Some (default (JInt 0) (step_id step))) <$> steps.
Proof.
  induction 1 as [|step result steps results Hexec _ IH]; [done|].
  rewrite !fmap_cons, IH. f_equal.
  destruct step as [| | | | | | | |d]; try done.
  by apply step_number_executed in Hexec.
Qed.

(** The results of steps that are objects are the records of their
    attempts. *)
Lemma steps_attempted self plan ui uid models steps results :
  Forall (fun step => is_dict step = true) steps →
  Forall2 (fun step result =>
             execute_step self step plan ui uid models = Returned result)
          steps results →
  results = (fun step => attempt self step plan ui models) <$> steps.
Proof.
  intros Hobjects Hall.
  induction Hall as [|step result steps results Hexec _ IH]; [done|].
  apply Forall_cons in Hobjects as [Hstep Hobjects].
  rewrite fmap_cons, <- IH by done. f_equal.
  destruct step as [| | | | | | | |d]; try done.
  rewrite execute_step_attempt in Hexec. by injection Hexec.
Qed.

(** C2, as the code has it.  In a plan of the expected shape (an object
    whose steps are a list of objects, whose additional capabilities can be
    iterated and whose capabilities can be rendered), a step without a tool
    whose capability is vision, speech_input, speech_output or embedding and
    for which no model was obtained is recorded as a successful step: its
    result is the handler's "... capability not available" message, its
    ["success"] is true and it has no ["error"]; and every step of the plan
    is recorded, so execution goes on. *)
Theorem unavailable_capability_step_recorded self plan steps ui uid
    (i : nat) d (capability message : string) :
  plan_shape plan steps →
  steps !! i = Some (JDict d) →
  truthy (default JNull (dict_get d "tool")) = false →
  default (JStr "text") (dict_get d "capability") = JStr capability →
  (capability, message) ∈ not_available →
  dict_get (required_models self plan) capability = None →
  length (steps_completed (execute_plan self plan ui uid).1) = length steps
  ∧ steps_completed (execute_plan self plan ui uid).1 !! i
    = Some (JDict
              [ ("step_number", default (JInt 0) (dict_get d "step"));
                ("action", default (JStr "") (dict_get d "action"));
                ("capability", JStr capability);
                ("success", JBool true);
                ("result", JStr message);
                ("tool_used", default JNull (dict_get d "tool")) ]).
Proof.
  intros Hshape Hstep Htool Hcap Hmessage Hmodel.
  destruct (execute_plan_shape self plan steps ui uid Hshape)
    as (models & self1 & Hload & Hall & _).
  apply required_models_loaded in Hload as [Hmodels _].
  rewrite Hmodels in Hmodel.
  split; [symmetry; by eapply Forall2_length|].
  destruct (Forall2_lookup_l _ _ _ _ _ Hall Hstep) as (result & -> & Hexec).
  rewrite execute_step_object in Hexec. injection Hexec as <-.
  unfold step_dispatch. rewrite Htool, Hcap.
  unfold not_available in Hmessage.
  repeat (apply elem_of_cons in Hmessage as [[= -> ->]|Hmessage];
          [cbn; cbn in Hmodel; by rewrite Hmodel|]).
  by apply elem_of_nil in Hmessage.
Qed.

(** C3, as the code has it.  For a plan of the expected shape, the
    ["success"] flag of the record is true exactly when no exception reached
    the handler of [execute_plan], so that the record has no ["error"]; this
    is the case exactly when the final prompt could be built, that is when
    the plan's intent could be rendered and the step results could be
    serialised.  Every step has a result in the record either way, and the
    ["success"] entries of the results play no part. *)
Theorem execute_plan_success_flag self plan steps ui uid :
  plan_shape plan steps →
  (success (execute_plan self plan ui uid).1 = true ↔
   error (execute_plan self plan ui uid).1 = None)
  ∧ (success (execute_plan self plan ui uid).1 = true ↔
     formattable (plan_intent plan)
     ∧ ∃ text, json_dumps (Some 2%nat)
                 (JList (steps_completed (execute_plan self plan ui uid).1))
               = Returned text)
  ∧ length (steps_completed (execute_plan self plan ui uid).1) = length steps.
Proof.
  intros Hshape.
  destruct (execute_plan_shape self plan steps ui uid Hshape)
    as (models & self1 & _ & Hall & Hdump & Herror).
  split_and!; [done..|]. symmetry. by eapply Forall2_length.
Qed.

(** C4, as the code has it.  For a plan of the expected shape,
    [execute_plan] executes the steps in the order of the plan's
    ["execution_steps"] list: the i-th result recorded is the result of
    executing the i-th step of the list, that is the record of running the
    branch its tool or capability selects, whatever the steps' ids and
    [depends_on] are. *)
Theorem execute_plan_list_order self plan steps ui uid :
  plan_shape plan steps →
  Forall2 (fun step result =>
             execute_step (load_required_models self plan).2 step plan ui uid
               (required_models self plan) = Returned result)
          steps (steps_completed (execute_plan self plan ui uid).1)
  ∧ step_number <$> steps_completed (execute_plan self plan ui uid).1
    = (fun step => Some (default (JInt 0) (step_id step))) <$> steps
  ∧ steps_completed (execute_plan self plan ui uid).1
    = (fun step => attempt (load_required_models self plan).2 step plan ui
                     (required_models self plan)) <$> steps.
Proof.
  intros Hshape.
  destruct (execute_plan_shape self plan steps ui uid Hshape)
    as (models & self1 & Hload & Hall & _).
  apply required_models_loaded in Hload as [-> ->].
  split_and!; [done|by eapply step_numbers_in_order|].
  destruct Hshape as (d & _ & _ & Hobjects & _).
  by eapply steps_attempted.
Qed.

(** C9, as the code has it.  In a plan of the expected shape, let step B
    list the id of step A in its [depends_on], and let the result recorded
    for A be a failure.  Then B is attempted all the same: the branch its tool
    or capability selects is run, and the record of that attempt is the result
    at B's position. *)
Theorem dependent_step_still_attempted self plan steps ui uid
    (i j : nat) (A B a resultA : json) :
  plan_shape plan steps →
  steps !! i = Some A → steps !! j = Some B →
  step_id A = Some a → a ∈ step_depends_on B →
  steps_completed (execute_plan self plan ui uid).1 !! i = Some resultA →
  step_success resultA = Some (JBool false) →
  is_dict B = true
  ∧ steps_completed (execute_plan self plan ui uid).1 !! j
    = Some (attempt (load_required_models self plan).2 B plan ui
              (required_models self plan))
  ∧ step_number (attempt (load_required_models self plan).2 B plan ui
                   (required_models self plan))
    = Some (default (JInt 0) (step_id B)).
Proof.
  intros Hshape HA HB Hid Hdep HresultA Hfailed.
  destruct (execute_plan_shape self plan steps ui uid Hshape)
    as (models & self1 & Hload & Hall & _).
  apply required_models_loaded in Hload as [-> ->].
  destruct Hshape as (d & _ & _ & Hobjects & _).
  pose proof (steps_attempted _ _ _ _ _ _ _ Hobjects Hall) as Hattempts.
  assert (is_dict B = true) as HdictB
    by (by eapply (proj1 (Forall_lookup _ _) Hobjects)).
  split_and!; [done| |].
  - rewrite Hattempts, list_lookup_fmap, HB. done.
  - destruct B as [| | | | | | | |dB]; try done.
    apply (step_number_executed self1 dB plan ui uid models).
    apply execute_step_attempt.
Qed.
End Execution.

(** *** The claims on the example agent *)

Ltac plan_shape_by_computation :=
  eexists; split_and!;
  [reflexivity | reflexivity | repeat constructor
  | eexists; split; [reflexivity | repeat constructor; by eexists]].

Lemma unavailable_capability_step_recorded_witness :
  length (steps_completed
            (execute_plan (H := example_runtime 1000) (example_agent 1000)
               vision_plan "What is in this image?" "default").1) = 1%nat
  ∧ steps_completed
      (execute_plan (H := example_runtime 1000) (example_agent 1000)
         vision_plan "What is in this image?" "default").1 !! 0%nat
    = Some (JDict
              [ ("step_number", JInt 1);
                ("action", JStr "describe image");
                ("capability", JStr "vision");
                ("success", JBool true);
                ("result", JStr "Vision capability not available");
                ("tool_used", JNull) ]).
Proof.
  apply (unavailable_capability_step_recorded (H := example_runtime 1000)
           (example_agent 1000) vision_plan
           [ JDict [ ("step", JInt 1); ("action", JStr "describe image");
                     ("capability", JStr "vision"); ("depends_on", JList []) ] ]
           "What is in this image?" "default" 0
           [ ("step", JInt 1); ("action", JStr "describe image");
             ("capability", JStr "vision"); ("depends_on", JList []) ]
           "vision" "Vision capability not available").
  - plan_shape_by_computation.
  - reflexivity.
  - reflexivity.
  - reflexivity.
  - apply list_elem_of_here.
  - vm_compute. reflexivity.
Defined.

(** C2 fails as stated, on the scenario of the specification: the vision
    model cannot be built, the plan's only step asks for vision, and the
    step is recorded with ["success"] true and no ["error"]. *)
Lemma vision_unavailable_step_succeeds :
  parse_execution_plan
    (q "{'primary_capability':'vision','execution_steps':[{'step':1,'action':'describe image','capability':'vision','depends_on':[]}]}")
  = Returned vision_plan
  ∧ load_model (H := example_runtime 1000)
      (default (Build_DynamicModelLoader JNull ∅ None)
         (model_loader (example_agent 1000)))
      (JStr "vision") false
    = (Returned None,
       default (Build_DynamicModelLoader JNull ∅ None)
         (model_loader (example_agent 1000)))
  ∧ models_used (example_run 1000 vision_plan "What is in this image?") = []
  ∧ steps_completed (example_run 1000 vision_plan "What is in this image?")
    = [ JDict [ ("step_number", JInt 1);
                ("action", JStr "describe image");
                ("capability", JStr "vision");
                ("success", JBool true);
                ("result", JStr "Vision capability not available");
                ("tool_used", JNull) ] ]
  ∧ success (example_run 1000 vision_plan "What is in this image?") = true
  ∧ error (example_run 1000 vision_plan "What is in this image?") = None.
Proof. split_and!; vm_compute; reflexivity. Qed.

(** Outside the expected shape the models may not be loaded at all: when
    ["additional_capabilities"] is [None], gathering the capabilities raises,
    no step is executed and the run is a failure. *)
Lemma null_capabilities_no_step :
  steps_completed (example_run 1000 null_capabilities_plan "What is in this image?")
  = []
  ∧ success (example_run 1000 null_capabilities_plan "What is in this image?")
    = false
  ∧ error (example_run 1000 null_capabilities_plan "What is in this image?")
    = Some "'NoneType' object is not iterable".
Proof. split_and!; vm_compute; reflexivity. Qed.

Lemma execute_plan_success_flag_witness :
  (success (execute_plan (H := example_runtime 1000) (example_agent 1000)
              dependent_plan "Summarise this" "default").1 = true ↔
   error (execute_plan (H := example_runtime 1000) (example_agent 1000)
            dependent_plan "Summarise this" "default").1 = None)
  ∧ (success (execute_plan (H := example_runtime 1000) (example_agent 1000)
                dependent_plan "Summarise this" "default").1 = true ↔
     formattable (H := example_runtime 1000) (plan_intent dependent_plan)
     ∧ ∃ text, json_dumps (Runtime := example_runtime 1000) (Some 2%nat)
                 (JList (steps_completed
                           (execute_plan (H := example_runtime 1000)
                              (example_agent 1000) dependent_plan
                              "Summarise this" "default").1))
               = Returned text)
  ∧ length (steps_completed
              (execute_plan (H := example_runtime 1000) (example_agent 1000)
                 dependent_plan "Summarise this" "default").1) = 2%nat.
Proof.
  apply (execute_plan_success_flag (H := example_runtime 1000)
           (example_agent 1000) dependent_plan (plan_steps dependent_plan)
           "Summarise this" "default").
  plan_shape_by_computation.
Defined.

(** C3 fails as stated, in both directions.  When an element of the step
    list is not an object the run is aborted: the flag is false although the
    one result recorded is a success.  And when a step fails (here no encoder
    serialises the plan, which the text step passes to the main brain) the
    flag stays true. *)
Lemma overall_success_ignores_step_results :
  (success (example_run 1000 malformed_plan "Hello") = false
   ∧ error (example_run 1000 malformed_plan "Hello")
     = Some "'int' object has no attribute 'get'"
   ∧ step_success <$> steps_completed (example_run 1000 malformed_plan "Hello")
     = [Some (JBool true)])
  ∧ (success (example_run 1000 deep_plan "Summarise this") = true
     ∧ error (example_run 1000 deep_plan "Summarise this") = None
     ∧ step_success <$> steps_completed (example_run 1000 deep_plan "Summarise this")
       = [Some (JBool false); Some (JBool true)]).
Proof. split_and!; vm_compute; reflexivity. Qed.

Lemma execute_plan_list_order_witness :
  Forall2 (fun step result =>
             execute_step (H := example_runtime 1000)
               (load_required_models (H := example_runtime 1000)
                  (example_agent 1000) backward_plan).2
               step backward_plan "Report" "default"
               (required_models (example_agent 1000) backward_plan)
             = Returned result)
          (plan_steps backward_plan)
          (steps_completed
             (execute_plan (H := example_runtime 1000) (example_agent 1000)
                backward_plan "Report" "default").1)
  ∧ step_number <$> steps_completed
                      (execute_plan (H := example_runtime 1000)
                         (example_agent 1000) backward_plan "Report" "default").1
    = (fun step => Some (default (JInt 0) (step_id step)))
      <$> plan_steps backward_plan
  ∧ steps_completed
      (execute_plan (H := example_runtime 1000) (example_agent 1000)
         backward_plan "Report" "default").1
    = (fun step =>
         attempt (H := example_runtime 1000)
           (load_required_models (H := example_runtime 1000)
              (example_agent 1000) backward_plan).2
           step backward_plan "Report"
           (required_models (example_agent 1000) backward_plan))
      <$> plan_steps backward_plan.
Proof.
  apply (execute_plan_list_order (H := example_runtime 1000)
           (example_agent 1000) backward_plan (plan_steps backward_plan)
           "Report" "default").
  plan_shape_by_computation.
Defined.

(** C4 fails as stated: step 1 is listed first and depends on step 2, and
    it is executed first; and of two independent steps the one listed first
    is executed first, although its id is the larger. *)
Lemma steps_run_in_list_order_not_dependency_order :
  depends backward_plan (JInt 1) (JInt 2)
  ∧ step_number <$> steps_completed (example_run 1000 backward_plan "Report")
    = [Some (JInt 1); Some (JInt 2)]
  ∧ step_depends_on <$> plan_steps unordered_plan = [[]; []]
  ∧ step_number <$> steps_completed (example_run 1000 unordered_plan "Hello")
    = [Some (JInt 2); Some (JInt 1)].
Proof.
  split_and!; [|vm_compute; reflexivity..].
  eexists. split_and!; [apply list_elem_of_here|reflexivity|apply list_elem_of_here].
Qed.

Lemma dependent_step_still_attempted_witness :
  is_dict (JDict [ ("step", JInt 2); ("action", JStr "index the summary");
                   ("capability", JStr "embedding");
                   ("depends_on", JList [JInt 1]) ]) = true
  ∧ steps_completed
      (execute_plan (H := example_runtime 1000) (example_agent 1000)
         deep_plan "Summarise this" "default").1 !! 1%nat
    = Some (attempt (H := example_runtime 1000)
              (load_required_models (H := example_runtime 1000)
                 (example_agent 1000) deep_plan).2
              (JDict [ ("step", JInt 2); ("action", JStr "index the summary");
                       ("capability", JStr "embedding");
                       ("depends_on", JList [JInt 1]) ])
              deep_plan "Summarise this"
              (required_models (example_agent 1000) deep_plan))
  ∧ step_number
      (attempt (H := example_runtime 1000)
         (load_required_models (H := example_runtime 1000)
            (example_agent 1000) deep_plan).2
         (JDict [ ("step", JInt 2); ("action", JStr "index the summary");
                  ("capability", JStr "embedding");
                  ("depends_on", JList [JInt 1]) ])
         deep_plan "Summarise this"
         (required_models (example_agent 1000) deep_plan))
    = Some (default (JInt 0)
              (step_id
                 (JDict [ ("step", JInt 2); ("action", JStr "index the summary");
                          ("capability", JStr "embedding");
                          ("depends_on", JList [JInt 1]) ]))).
Proof.
  apply (dependent_step_still_attempted (H := example_runtime 1000)
           (example_agent 1000) deep_plan (plan_steps deep_plan)
           "Summarise this" "default" 0 1
           (JDict [ ("step", JInt 1); ("action", JStr "summarise");
                    ("capability", JStr "text"); ("depends_on", JList []) ])
           (JDict [ ("step", JInt 2); ("action", JStr "index the summary");
                    ("capability", JStr "embedding");
                    ("depends_on", JList [JInt 1]) ])
           (JInt 1)
           (JDict [ ("step_number", JInt 1); ("action", JStr "summarise");
                    ("success", JBool false);
                    ("error",
                      JStr "maximum recursion depth exceeded while encoding a JSON object");
                    ("result", JStr "") ])).
  - plan_shape_by_computation.
  - reflexivity.
  - reflexivity.
  - reflexivity.
  - apply list_elem_of_here.
  - vm_compute. reflexivity.
  - reflexivity.
Defined.

(** C9 fails as stated, for a plan whose step list holds something that is
    not an object.  Step 1 fails (no encoder serialises the plan), step 2
    lists it in its [depends_on], and between them stands a number: the run
    stops at the number, so step 2 is never attempted and the record holds
    the result of step 1 alone. *)
Lemma dependent_step_not_attempted :
  ∃ A B resultA,
    plan_steps interrupted_plan !! 0%nat = Some A
    ∧ plan_steps interrupted_plan !! 2%nat = Some B
    ∧ step_id A = Some (JInt 1)
    ∧ JInt 1 ∈ step_depends_on B
    ∧ steps_completed (example_run 1000 interrupted_plan "Summarise this")
      = [resultA]
    ∧ step_success resultA = Some (JBool false)
    ∧ step_number resultA = Some (JInt 1)
    ∧ success (example_run 1000 interrupted_plan "Summarise this") = false
    ∧ error (example_run 1000 interrupted_plan "Summarise this")
      = Some "'int' object has no attribute 'get'".
Proof.
  exists (JDict [ ("step", JInt 1); ("action", JStr "summarise");
                  ("capability", JStr "text"); ("depends_on", JList []) ]),
    (JDict [ ("step", JInt 2); ("action", JStr "index the summary");
             ("capability", JStr "embedding");
             ("depends_on", JList [JInt 1]) ]),
    (JDict [ ("step_number", JInt 1); ("action", JStr "summarise");
             ("success", JBool false);
             ("error",
               JStr "maximum recursion depth exceeded while encoding a JSON object");
             ("result", JStr "") ]).
  split_and!; [reflexivity|reflexivity|reflexivity|apply list_elem_of_here
              |vm_compute; reflexivity|reflexivity|reflexivity
              |vm_compute; reflexivity..].
Qed.

(** ** The decoder uses less than its bound *)

Section Decoder.
#[local] Arguments Ascii.eqb : simpl never.
Local Open Scope nat_scope.

Lemma skip_ws_length (s : string) :
  String.length (skip_ws s) ≤ String.length s.
Proof.
  induction s as [|c s IH]; simpl; [done|].
  destruct (is_ws c); simpl; lia.
Qed.

Lemma consumes_map {A B} (f : A → B) (n : nat) (r : scan A) :
  consumes n r → consumes n (scan_map f r).
Proof. by destruct r. Qed.

Lemma consumes_le {A} (n m : nat) (r : scan A) :
  n ≤ m → consumes n r → consumes m r.
Proof. destruct r; simpl; [lia|done..]. Qed.

Lemma scanstring_consumes_below (n : nat) (s : string) :
  String.length s < n → consumes (String.length s) (scanstring s).
Proof.
  revert s. induction n as [|n IH]; intros s Hn; [lia|].
  destruct s as [|c r]; [done|].
  assert (∀ t (f : string → string), String.length t ≤ String.length r →
                 consumes (String.length (String c r))
                   (scan_map f (scanstring t))) as Hrec.
  { intros t f Ht. apply consumes_map, consumes_le with (String.length t).
    - simpl. lia.
    - apply IH. simpl in Hn. lia. }
  clear IH Hn. cbn [scanstring].
  destruct (Ascii.eqb c dquote); [simpl; lia|].
  destruct (Ascii.eqb c backslash).
  - destruct r as [|e r1]; [done|].
    destruct (Ascii.eqb e "u").
    + destruct r1 as [|h1 [|h2 [|h3 [|h4 r2]]]]; try done.
      destruct (hex4 h1 h2 h3 h4) as [cp|]; [|done].
      cbv zeta.
      destruct (is_high_surrogate cp); [|apply Hrec; simpl; lia].
      destruct r2 as [|b [|u [|k1 [|k2 [|k3 [|k4 r3]]]]]];
        try (apply Hrec; simpl; lia).
      destruct (Ascii.eqb b backslash && Ascii.eqb u "u");
        [|apply Hrec; simpl; lia].
      destruct (hex4 k1 k2 k3 k4) as [c2|]; [|done].
      destruct (is_low_surrogate c2); apply Hrec; simpl; lia.
    + destruct (unescape e); [|done]. apply Hrec. simpl. lia.
  - destruct (N.leb (N_of_ascii c) 31); [done|]. apply Hrec. simpl. lia.
Qed.

Lemma scanstring_consumes (s : string) :
  consumes (String.length s) (scanstring s).
Proof. apply (scanstring_consumes_below (S (String.length s))). lia. Qed.

Lemma span_digits_length (s d t : string) :
  span_digits s = (d, t) → String.length t ≤ String.length s.
Proof.
  revert d t. induction s as [|c s IH]; intros d t; simpl.
  - by intros [= <- <-].
  - destruct (is_digit c); [|intros [= <- <-]; simpl; lia].
    destruct (span_digits s) as [d' t'] eqn:Hs. intros [= <- <-].
    specialize (IH _ _ eq_refl). lia.
Qed.

Lemma match_sign_length (s : string) :
  String.length (match_sign s).2 ≤ String.length s.
Proof.
  destruct s as [|c r]; simpl; [done|].
  destruct (Ascii.eqb c "-"); simpl; lia.
Qed.

Lemma match_int_part_length (s ip rest : string) :
  match_int_part s = Some (ip, rest) → String.length rest < String.length s.
Proof.
  destruct s as [|d r]; simpl; [done|].
  destruct (Ascii.eqb d "0"); [intros [= <- <-]; lia|].
  destruct (is_digit d); [|done].
  destruct (span_digits r) as [ds t] eqn:Hr. intros [= <- <-].
  apply span_digits_length in Hr. lia.
Qed.

Lemma match_fraction_length (s : string) :
  String.length (match_fraction s).2 ≤ String.length s.
Proof.
  unfold match_fraction.
  destruct s as [|dot [|d r]]; [done..|].
  destruct (Ascii.eqb dot "." && is_digit d); [|done].
  destruct (span_digits (String d r)) as [ds t] eqn:Hr.
  apply span_digits_length in Hr. simpl in *. lia.
Qed.

Lemma match_exponent_length (s : string) :
  String.length (match_exponent s).2 ≤ String.length s.
Proof.
  unfold match_exponent.
  destruct s as [|e r]; [done|].
  destruct (Ascii.eqb e "e" || Ascii.eqb e "E"); [|done].
  assert (∀ (neg : bool) t, String.length t ≤ String.length r →
            String.length
              (let '(ds, u) := span_digits t in
               match ds with
               | EmptyString => (None, String e r)
               | String _ _ =>
                   (Some (if neg then (- digits_value 0 ds)%Z
                          else digits_value 0 ds), u)
               end).2 ≤ String.length (String e r)) as Hdigits.
  { intros neg t Ht. destruct (span_digits t) as [ds u] eqn:Hu.
    apply span_digits_length in Hu. destruct ds; simpl; lia. }
  destruct r as [|sg t]; [by apply (Hdigits false EmptyString)|].
  destruct (Ascii.eqb sg "-"); [apply (Hdigits true t); simpl; lia|].
  destruct (Ascii.eqb sg "+");
    [apply (Hdigits false t)|apply (Hdigits false (String sg t))]; simpl; lia.
Qed.

Lemma match_number_shorter (s : string) (v : json) (rest : string) :
  match_number s = Some (v, rest) → String.length rest < String.length s.
Proof.
  unfold match_number.
  pose proof (match_sign_length s) as Hsign.
  destruct (match_sign s) as [neg s1]. simpl in Hsign.
  destruct (match_int_part s1) as [[ip s2]|] eqn:Hint; [|done].
  apply match_int_part_length in Hint.
  pose proof (match_fraction_length s2) as Hfrac.
  destruct (match_fraction s2) as [frac s3]. simpl in Hfrac.
  pose proof (match_exponent_length s3) as Hexp.
  destruct (match_exponent s3) as [ex s4]. simpl in Hexp.
  destruct frac, ex; intros [= <- <-]; lia.
Qed.

Lemma str_drop_length (k : nat) (s : string) :
  String.length (str_drop k s) ≤ String.length s.
Proof.
  revert s. induction k as [|k IH]; intros [|c r]; simpl; try lia.
  specialize (IH r). lia.
Qed.

Lemma starts_with_nonempty_drop (p s : string) (k : nat) :
  starts_with p s = true → p ≠ EmptyString →
  String.length (str_drop (S k) s) < String.length s.
Proof.
  destruct p as [|a p]; [done|]. destruct s as [|b s]; [done|].
  intros _ _. simpl. pose proof (str_drop_length k s). lia.
Qed.

(** With a bound above twice the length of the text, the three scanners
    stay within it, and what they leave is shorter than the text. *)
Lemma scan_once_consumes (n : nat) :
  (∀ s, 2 * String.length s + 1 ≤ n →
        consumes (String.length s) (scan_once n s))
  ∧ (∀ s acc, 2 * String.length s + 1 ≤ n →
              consumes (String.length s) (parse_object n s acc))
  ∧ (∀ s acc, 2 * String.length s + 2 ≤ n →
              consumes (String.length s) (parse_array n s acc)).
Proof.
  induction n as [|n (IHvalue & IHobject & IHarray)].
  { split_and!; intros; lia. }
  split_and!.
  - intros s Hn. destruct s as [|c r]; [done|]. cbn [scan_once].
    destruct (Ascii.eqb c dquote).
    { apply consumes_map, consumes_le with (String.length r);
        [simpl; lia|apply scanstring_consumes]. }
    pose proof (skip_ws_length r) as Hws.
    destruct (Ascii.eqb c "{").
    { destruct (skip_ws r) as [|c1 r1] eqn:Hr.
      - apply consumes_le with (String.length EmptyString); [simpl; lia|].
        apply IHobject. simpl in *. lia.
      - destruct (Ascii.eqb c1 "}"); [simpl in *; lia|].
        apply consumes_le with (String.length (String c1 r1)); [simpl in *; lia|].
        apply IHobject. simpl in *. lia. }
    destruct (Ascii.eqb c "[").
    { destruct (skip_ws r) as [|c1 r1] eqn:Hr.
      - apply consumes_le with (String.length EmptyString); [simpl; lia|].
        apply IHarray. simpl in *. lia.
      - destruct (Ascii.eqb c1 "]"); [simpl in *; lia|].
        apply consumes_le with (String.length (String c1 r1)); [simpl in *; lia|].
        apply IHarray. simpl in *. lia. }
    repeat match goal with
           | |- consumes _ (if starts_with ?p ?s then _ else _) =>
               destruct (starts_with p s) eqn:?;
               [by eapply starts_with_nonempty_drop|]
           end.
    destruct (match_number (String c r)) as [[v rest]|] eqn:Hnum; [|done].
    by apply match_number_shorter in Hnum.
  - intros s acc Hn. destruct s as [|c r]; [done|]. cbn [parse_object].
    destruct (Ascii.eqb c dquote); [|done].
    pose proof (scanstring_consumes r) as Hkey.
    destruct (scanstring r) as [key r1| |]; [|done..]. simpl in Hkey.
    pose proof (skip_ws_length r1) as Hws1.
    destruct (skip_ws r1) as [|c2 r2]; [done|].
    destruct (Ascii.eqb c2 ":"); [|done].
    pose proof (skip_ws_length r2) as Hws2.
    assert (consumes (String.length (skip_ws r2)) (scan_once n (skip_ws r2)))
      as Hvalue by (apply IHvalue; simpl in *; lia).
    destruct (scan_once n (skip_ws r2)) as [v r3| |]; [|done..]. simpl in Hvalue.
    pose proof (skip_ws_length r3) as Hws3.
    destruct (skip_ws r3) as [|c3 r4]; [done|].
    destruct (Ascii.eqb c3 "}"); [simpl in *; lia|].
    destruct (Ascii.eqb c3 ","); [|done].
    pose proof (skip_ws_length r4) as Hws4.
    apply consumes_le with (String.length (skip_ws r4)); [simpl in *; lia|].
    apply IHobject. simpl in *. lia.
  - intros s acc Hn. cbn [parse_array].
    assert (consumes (String.length s) (scan_once n s))
      as Hvalue by (apply IHvalue; lia).
    destruct (scan_once n s) as [v r1| |]; [|done..]. simpl in Hvalue.
    pose proof (skip_ws_length r1) as Hws1.
    destruct (skip_ws r1) as [|c r2]; [done|].
    destruct (Ascii.eqb c "]"); [simpl in *; lia|].
    destruct (Ascii.eqb c ","); [|done].
    pose proof (skip_ws_length r2) as Hws2.
    apply consumes_le with (String.length (skip_ws r2)); [simpl in *; lia|].
    apply IHarray. simpl in *. lia.
Qed.

(** [json_loads] never reaches the bound it passes. *)
Lemma scan_once_enough (s : string) :
  scan_once (scan_bound s) (skip_ws s) ≠ Exhausted.
Proof.
  pose proof (proj1 (scan_once_consumes (scan_bound s)) (skip_ws s)) as Hc.
  pose proof (skip_ws_length s) as Hws. unfold scan_bound in *.
  intros Hex. rewrite Hex in Hc. apply Hc. lia.
Qed.
End Decoder.

(** ** Loading models *)

Section Loading.
Context `{Runtime}.
Implicit Types (self : DynamicModelLoader) (name : string) (model : Model).

(** The four ways [load_model] ends: with the [TypeError] of the membership
    test, with the exception of the rendering of the name, with [None], or
    with a model, which it then holds. *)
Lemma load_model_cases self (model_name : json) (force_reload : bool) :
  (unhashable model_name = true
   ∧ load_model self model_name force_reload
     = (Raised (TypeError ("unhashable type: '" +:+ type_name model_name +:+ "'")),
        self))
  ∨ (unhashable model_name = false
     ∧ ∃ e, py_format model_name = Raised e
            ∧ load_model self model_name force_reload = (Raised e, self))
  ∨ (unhashable model_name = false
     ∧ formattable model_name
     ∧ load_model self model_name force_reload = (Returned None, self))
  ∨ ∃ name model,
      model_name = JStr name
      ∧ ((loaded_models self !! name = Some model ∧ force_reload = false
          ∧ load_model self model_name force_reload = (Returned (Some model), self))
         ∨ ((force_reload = true ∨ loaded_models self !! name = None)
            ∧ load_model self model_name force_reload
              = (Returned (Some model),
                 set_loaded_models self (<[name := model]> (loaded_models self))))).
Proof.
  unfold load_model.
  destruct (unhashable model_name) eqn:Hhash; [by left|].
  right.
  destruct (py_format model_name) as [text|e] eqn:Hformat.
  - right.
    destruct model_name as [| | | | | |name| |]; try done;
      try (left; split_and!; [done|by eexists|];
           cbn [mbind outcome_bind];
           destruct (py_get (config self) "models" (JDict [])) as [models|];
           cbn [mbind outcome_bind]; [|done];
           destruct models; cbn; rewrite ?Hformat; done).
    destruct (loaded_models self !! name) as [model|] eqn:Hloaded.
    + destruct force_reload.
      * match goal with
        | |- context [match ?a with Returned _ => _ | Raised _ => _ end] =>
            destruct a as [[model'|]|]
        end;
          [right; exists name, model'; split; [done|right; split; [by left|done]]
          |left; split_and!; [done|by eexists|done]..].
      * right. exists name, model. split; [done|]. by left.
    + match goal with
      | |- context [match ?a with Returned _ => _ | Raised _ => _ end] =>
          destruct a as [[model'|]|]
      end;
        [right; exists name, model'; split; [done|right; split; [by right|done]]
        |left; split_and!; [done|by eexists|by destruct force_reload]..].
  - left. split; [done|]. exists e. split; [done|].
    assert (match model_name with
            | JStr name => loaded_models self !! name
            | _ => None
            end = None) as -> by (by destruct model_name).
    cbn [mbind outcome_bind].
    destruct (py_get (config self) "models" (JDict [])) as [models|];
      cbn [mbind outcome_bind]; [|done].
    destruct (py_get_key models model_name (JDict [])) as [model_config|];
      cbn [mbind outcome_bind]; [|done].
    destruct (py_get model_config "enabled" (JBool false)) as [enabled|];
      cbn [mbind outcome_bind]; [|done].
    destruct (negb (truthy enabled)); cbn [mbind outcome_bind]; [done|].
    destruct (py_get model_config "model" JNull) as [model_path|];
      cbn [mbind outcome_bind]; [|done].
    by destruct (py_get model_config "use_case" (JStr "general")) as [use_case|].
Qed.



(** X2.  [load_model] raises in two cases only: when the name cannot be a
    dict key (a list or an object), with the [TypeError] of the membership
    test that precedes its [try] block, and when the name is neither that nor
    renderable, with the exception of the rendering, which the log message of
    its [except] clause raises anew.  Whenever it raises or returns [None] the
    loader is left as it was. *)
Theorem load_model_failure_changes_nothing self (model_name : json)
    (force_reload : bool) :
  (∀ e, (load_model self model_name force_reload).1 = Raised e ↔
        (unhashable model_name = true
         ∧ e = TypeError ("unhashable type: '" +:+ type_name model_name +:+ "'"))
        ∨ (unhashable model_name = false ∧ py_format model_name = Raised e))
  ∧ ((load_model self model_name force_reload).1 = Returned None
     ∨ (∃ e, (load_model self model_name force_reload).1 = Raised e) →
     (load_model self model_name force_reload).2 = self).
Proof.
  destruct (load_model_cases self model_name force_reload)
    as [(Hhash & Hcase) | [(Hhash & e & Hformat & Hcase)
       | [(Hhash & [text Hformat] & Hcase) | (name & model & -> & Hcase)]]].
  - rewrite Hcase. cbn. split; [|done]. intros e. split.
    + intros [= <-]. by left.
    + intros [[_ ->]|[? _]]; [done|congruence].
  - rewrite Hcase. cbn. split; [|done]. intros e'. split.
    + intros [= <-]. by right.
    + intros [[? _]|[_ ?]]; congruence.
  - rewrite Hcase. cbn. split; [|done]. intros e. split; [done|].
    intros [[? _]|[_ ?]]; congruence.
  - assert ((load_model self (JStr name) force_reload).1 = Returned (Some model))
      as Hreturned by (by destruct Hcase as [(_ & _ & ->) | (_ & ->)]).
    rewrite Hreturned. split; [|by intros [?|[e ?]]].
    intros e. split; [done|]. by intros [[? _]|[_ ?]].
Qed.

(** X3.  Loading is idempotent: after a call that returned a model, the
    same call without [force_reload] returns the same model and changes
    nothing. *)
Theorem load_model_twice self (model_name : json) (force_reload : bool)
    model self' :
  load_model self model_name force_reload = (Returned (Some model), self') →
  load_model self' model_name false = (Returned (Some model), self').
Proof.
  intros Hload.
  destruct (load_model_cases self model_name force_reload)
    as [(_ & Hcase) | [(_ & e & _ & Hcase)
       | [(_ & _ & Hcase) | (name & model' & -> & Hcase)]]];
    [by rewrite Hcase in Hload..|].
  assert (loaded_models self' !! name = Some model) as Hheld.
  { destruct Hcase as [(Hloaded & _ & Hcase) | (_ & Hcase)];
      rewrite Hcase in Hload; injection Hload as <- <-; [done|].
    apply lookup_insert_eq. }
  unfold load_model. cbn [unhashable]. by rewrite Hheld.
Qed.

(** X4.  A model that is not loaded and that the configuration does not
    enable (it has no entry in the ["models"] table, or its entry has no
    true ["enabled"]) is not loaded: [load_model] returns [None] and the
    loader stays as it was. *)
Theorem load_model_not_enabled self name (force_reload : bool)
    (d models : list (string * json)) :
  config self = JDict d →
  default (JDict []) (dict_get d "models") = JDict models →
  (dict_get models name = None
   ∨ ∃ entry, dict_get models name = Some (JDict entry)
              ∧ truthy (default (JBool false) (dict_get entry "enabled")) = false) →
  loaded_models self !! name = None →
  load_model self (JStr name) force_reload = (Returned None, self).
Proof.
  intros Hconfig Hmodels Hentry Hloaded.
  unfold load_model. cbn [unhashable]. rewrite Hloaded, Hconfig.
  cbn [py_get mbind outcome_bind]. rewrite Hmodels.
  cbn [py_get_key mbind outcome_bind].
  destruct Hentry as [-> | (entry & -> & Henabled)]; cbn; [done|].
  by rewrite Henabled.
Qed.




End Loading.

(** ** Running plans *)

Section Running.
Context `{Runtime}.
Implicit Types (self : IntelligentAgent) (plan step : json).
Implicit Types (d : list (string * json)) (models : list (string * Model)).

Lemma get_main_brain_response_not_empty self (prompt : string) :
  get_main_brain_response self prompt ≠ EmptyString.
Proof.
  unfold get_main_brain_response.
  destruct MODEL_LOADER_AVAILABLE; [|done].
  destruct (model_loader self) as [loader|]; [|done].
  destruct (main_brain loader) as [brain|]; [|done].
  by destruct (String.eqb _ _).
Qed.

(** The loop over the steps touches nothing of the record but the results
    and the tools used. *)
Lemma run_steps_frame self steps plan ui uid models (r : ExecutionResults) :
  plan_executed (run_steps self steps plan ui uid models r).1 = plan_executed r
  ∧ models_used (run_steps self steps plan ui uid models r).1 = models_used r
  ∧ response (run_steps self steps plan ui uid models r).1 = response r
  ∧ success (run_steps self steps plan ui uid models r).1 = success r
  ∧ error (run_steps self steps plan ui uid models r).1 = error r.
Proof.
  revert r. induction steps as [|step steps IH]; intros r; [done|]. cbn.
  destruct (execute_step self step plan ui uid models); [|done].
  apply (IH (record_step r _)).
Qed.

(** How [execute_plan] ends: aborted by an exception [e], with the results
    recorded until then, or completed. *)
Lemma execute_plan_ends self plan ui uid :
  (∃ r e, (execute_plan self plan ui uid).1 = execution_failed r e ui
          ∧ plan_executed r = plan)
  ∨ (∃ models self1 steps r text,
       load_required_models self plan = (Returned models, self1)
       ∧ (py_get plan "execution_steps" (JList []) ≫= py_iter) = Returned steps
       ∧ run_steps self1 steps plan ui uid models
           {| plan_executed := plan; steps_completed := [];
              models_used := models.*1; tools_used := [];
              response := EmptyString; success := true; error := None |}
         = (r, None)
       ∧ generate_final_response self1 r ui plan = Returned text
       ∧ (cleanup_models self1 plan).1 = Returned ()
       ∧ execute_plan self plan ui uid
         = (set_response r text, (cleanup_models self1 plan).2)).
Proof.
  unfold execute_plan.
  destruct (load_required_models self plan) as [[models|e] self1];
    [|left; eexists _, _; split; [reflexivity|done]].
  destruct (py_get plan "execution_steps" (JList []) ≫= py_iter)
    as [steps|e]; [|left; eexists _, _; split; [reflexivity|done]].
  match goal with
  | |- context [run_steps self1 steps plan ui uid models ?r0] =>
      pose proof (run_steps_frame self1 steps plan ui uid models r0)
        as (Hplan & _);
      destruct (run_steps self1 steps plan ui uid models r0) as [r [e|]] eqn:Hrun
  end; cbn in Hplan; [left; eexists _, _; split; [reflexivity|done]|].
  destruct (generate_final_response self1 r ui plan) as [text|e] eqn:Hfinal;
    [|left; eexists _, _; split; [reflexivity|done]].
  destruct (cleanup_models self1 plan) as [[[]|e] self2] eqn:Hclean;
    [|left; eexists _, _; split; [reflexivity|done]].
  right. exists models, self1, steps, r, text. rewrite Hclean.
  by split_and!.
Qed.

(** X6.  Whatever the plan is, even when it is not an object,
    [execute_plan] hands back a record that carries the plan it was given and
    a response that is not empty, and in which ["success"] is false exactly
    when an ["error"] is set. *)
Theorem execute_plan_always_answers self plan ui uid :
  plan_executed (execute_plan self plan ui uid).1 = plan
  ∧ response (execute_plan self plan ui uid).1 ≠ EmptyString
  ∧ (success (execute_plan self plan ui uid).1 = false ↔
     is_Some (error (execute_plan self plan ui uid).1)).
Proof.
  destruct (execute_plan_ends self plan ui uid)
    as [(r & e & -> & Hplan)
       |(models & self1 & steps & r & text & _ & _ & Hrun & Hfinal & _ & ->)].
  - cbn. split_and!; [done|done|]. split; [by eexists|done].
  - match type of Hrun with
    | run_steps _ _ _ _ _ _ ?r0 = _ =>
        pose proof (run_steps_frame self1 steps plan ui uid models r0)
          as (Hplan & _ & _ & Hsuccess & Herror)
    end.
    rewrite Hrun in Hplan, Hsuccess, Herror. cbn in *.
    rewrite Hplan, Hsuccess, Herror. split_and!; [done| |].
    + unfold generate_final_response in Hfinal.
      destruct (py_get plan "intent" (JStr "")) as [intent|]; [|done].
      cbn [mbind outcome_bind] in Hfinal.
      destruct (py_format intent); [|done].
      cbn [mbind outcome_bind] in Hfinal.
      destruct (py_format (JBool _)); [|done].
      cbn [mbind outcome_bind] in Hfinal.
      destruct (json_dumps _ _); [|done]. cbn [mbind outcome_bind] in Hfinal.
      injection Hfinal as <-. apply get_main_brain_response_not_empty.
    + split; [done|]. by intros [? ?].
Qed.

Lemma eq_str_true (v : json) (s : string) : eq_str v s = true → v = JStr s.
Proof. destruct v; try done. by intros ->%String.eqb_eq. Qed.

(** X7.  A run that succeeds ends by unloading: of the models in the
    agent's loader afterwards, each is named "deepseek-r1", or is named
    "embedding" or "text" and the plan's complexity is "complex".  Models
    loaded for the plan's other capabilities do not outlive the run. *)
Theorem successful_run_unloads self plan ui uid
    (loader' : DynamicModelLoader) (name : string) (model : Model) :
  MODEL_LOADER_AVAILABLE = true →
  success (execute_plan self plan ui uid).1 = true →
  model_loader (execute_plan self plan ui uid).2 = Some loader' →
  loaded_models loader' !! name = Some model →
  name = "deepseek-r1"
  ∨ (name ∈ ["embedding"; "text"]
     ∧ py_get plan "complexity" JNull = Returned (JStr "complex")).
Proof.
  intros Havailable Hsuccess Hloader Hname.
  destruct (execute_plan_ends self plan ui uid)
    as [(r & e & Hfailed & _)
       |(models & self1 & steps & r & text & _ & _ & _ & _ & Hclean & Hdone)].
  { by rewrite Hfailed in Hsuccess. }
  rewrite Hdone in Hloader. cbn [snd] in Hloader.
  unfold cleanup_models in Hclean, Hloader. rewrite Havailable in Hclean, Hloader.
  destruct (model_loader self1) as [loader|] eqn:Hloader1;
    [|cbn in Hloader; congruence].
  destruct (py_get plan "complexity" JNull) as [complexity|]; [|done].
  cbn in Hloader. injection Hloader as <-.
  apply unload_unused_models_remaining in Hname as [Hkept _].
  destruct (eq_str complexity "complex") eqn:Hcomplex.
  - apply eq_str_true in Hcomplex as ->.
    apply elem_of_cons in Hkept as [->|Hkept]; [by left|by right].
  - left. by apply list_elem_of_singleton in Hkept.
Qed.

(** The loop runs through a prefix of objects and goes on with what
    follows. *)
Lemma run_steps_prefix self good plan ui uid models (r : ExecutionResults) :
  Forall (fun step => is_dict step = true) good →
  ∃ r', length (steps_completed r') = (length (steps_completed r) + length good)%nat
        ∧ ∀ rest, run_steps self (good ++ rest) plan ui uid models r
                  = run_steps self rest plan ui uid models r'.
Proof.
  intros Hgood. revert r.
  induction Hgood as [|step good Hstep _ IH]; intros r.
  - exists r. split; [simpl; lia|done].
  - destruct step as [| | | | | | | |d]; try done.
    destruct (IH (record_step r
                    (match execute_step self (JDict d) plan ui uid models with
                     | Returned result => result
                     | Raised _ => JNull
                     end))) as (r' & Hlength & Hrest).
    exists r'. split.
    + rewrite Hlength. cbn. rewrite length_app. simpl. lia.
    + intros rest. rewrite <- Hrest. cbn [app run_steps].
      by rewrite execute_step_object.
Qed.


Lemma load_required_models_object self d (more : list json) :
  py_iter (default (JList []) (dict_get d "additional_capabilities"))
  = Returned more →
  Forall formattable (default JNull (dict_get d "primary_capability") :: more) →
  ∃ models self1, load_required_models self (JDict d) = (Returned models, self1).
Proof.
  intros Hmore Hformat. unfold load_required_models.
  destruct MODEL_LOADER_AVAILABLE; [|by eexists _, _].
  destruct (model_loader self) as [loader|]; [|by eexists _, _].
  cbn [py_get mbind outcome_bind]. rewrite Hmore. cbn [mbind outcome_bind].
  destruct (load_each_returns _ loader [] Hformat) as (models & loader' & ->).
  by eexists _, _.
Qed.

(** X8.  In a plan whose models could be loaded (its additional
    capabilities can be iterated and its capabilities rendered), a step that
    is not an object stops the run where it stands: the steps before it have
    their results recorded, no step after it is executed, and the record is
    a failure whose error is the [AttributeError] of the call [step.get] and
    whose response is the fallback response. *)
Theorem execute_plan_stops_at_non_object self d (good rest more : list json)
    (bad : json) ui uid :
  default (JList []) (dict_get d "execution_steps") = JList (good ++ bad :: rest) →
  Forall (fun step => is_dict step = true) good →
  is_dict bad = false →
  py_iter (default (JList []) (dict_get d "additional_capabilities"))
  = Returned more →
  Forall formattable (default JNull (dict_get d "primary_capability") :: more) →
  length (steps_completed (execute_plan self (JDict d) ui uid).1) = length good
  ∧ success (execute_plan self (JDict d) ui uid).1 = false
  ∧ error (execute_plan self (JDict d) ui uid).1
    = Some ("'" +:+ type_name bad +:+ "' object has no attribute 'get'")
  ∧ response (execute_plan self (JDict d) ui uid).1 = get_fallback_response ui.
Proof.
  intros Hsteps Hgood Hbad Hmore Hformat.
  destruct (load_required_models_object self d more Hmore Hformat)
    as (models & self1 & Hload).
  unfold execute_plan. rewrite Hload. cbn [py_get mbind outcome_bind].
  rewrite Hsteps. cbn [py_iter mbind outcome_bind].
  match goal with
  | |- context [run_steps self1 _ ?plan ui uid models ?r0] =>
      destruct (run_steps_prefix self1 good plan ui uid models r0 Hgood)
        as (r' & Hlength & ->)
  end.
  cbn [run_steps]. rewrite (execute_step_not_object _ _ _ _ _ _ Hbad).
  cbn. by rewrite Hlength.
Qed.

(** [use_tool] raises only the exception of the rendering of the tool's
    name: the one its [except] clause raises. *)
Lemma use_tool_raises self (tool : json) ui plan (e : exn) :
  use_tool self tool ui plan = Raised e → py_format tool = Raised e.
Proof.
  unfold use_tool, try_except.
  destruct (get_tool self tool) as [[f|]|e0]; cbn [mbind outcome_bind].
  - destruct (f ui plan); [done|].
    destruct (py_format tool); [done|by intros [= <-]].
  - destruct (py_format tool) as [name|e1] eqn:Hformat; cbn; [done|].
    by intros [= <-].
  - destruct (py_format tool); [done|by intros [= <-]].
Qed.

(** The loop records, for steps that are objects and whose tools can be
    rendered, exactly the tools the steps name. *)
Lemma run_steps_tools self steps plan ui uid models (r : ExecutionResults) :
  Forall (fun step => is_dict step = true) steps →
  Forall (fun step => formattable (step_tool step)) steps →
  tools_used (run_steps self steps plan ui uid models r).1
  = tools_used r ++ filter (fun tool => Is_true (truthy tool)) (step_tool <$> steps).
Proof.
  intros Hsteps Htools. revert r.
  induction Hsteps as [|step steps Hstep _ IH]; intros r.
  - cbn. by rewrite app_nil_r.
  - apply Forall_cons in Htools as [[name Hname] Htools].
    destruct step as [| | | | | | | |d]; try done.
    cbn [run_steps]. rewrite execute_step_object, (IH Htools).
    rewrite fmap_cons, filter_cons. cbn [step_tool] in *.
    unfold step_dispatch.
    destruct (truthy (default JNull (dict_get d "tool"))) eqn:Htool.
    + destruct (decide _) as [_|Hno]; [|by destruct Hno].
      destruct (use_tool self _ ui plan) as [text|e] eqn:Huse.
      * cbn. rewrite Htool. by rewrite <- app_assoc.
      * apply use_tool_raises in Huse. congruence.
    + destruct (decide _) as [[]|_].
      assert (∀ o : outcome string,
                tools_used
                  (record_step r
                     match o with
                     | Returned result =>
                         JDict
                           [ ("step_number", default (JInt 0) (dict_get d "step"));
                             ("action", default (JStr "") (dict_get d "action"));
                             ("capability",
                               default (JStr "text") (dict_get d "capability"));
                             ("success", JBool true); ("result", JStr result);
                             ("tool_used", default JNull (dict_get d "tool")) ]
                     | Raised e =>
                         JDict
                           [ ("step_number", default (JInt 0) (dict_get d "step"));
                             ("action", default (JStr "") (dict_get d "action"));
                             ("success", JBool false);
                             ("error", JStr (exn_str e)); ("result", JStr "") ]
                     end) = tools_used r) as ->; [|done].
      intros [result|e]; cbn; by rewrite ?Htool.
Qed.

(** X9.  For a plan of the expected shape whose steps name tools that can
    be rendered (as every string can), the tools the record lists as used
    are the tools the steps name (those that are true values), in the order
    of the steps, whether or not the tool exists or works. *)
Theorem execute_plan_tools_used self plan steps ui uid :
  plan_shape plan steps →
  Forall (fun step => formattable (step_tool step)) steps →
  tools_used (execute_plan self plan ui uid).1
  = filter (fun tool => Is_true (truthy tool)) (step_tool <$> steps).
Proof.
  intros Hshape Htools.
  destruct (load_required_models_shape self plan steps Hshape)
    as (models & self1 & Hload).
  destruct Hshape as (d & -> & Hsteps & Hobjects & _).
  unfold execute_plan. rewrite Hload. cbn [py_get mbind outcome_bind].
  rewrite Hsteps. cbn [py_iter mbind outcome_bind].
  match goal with
  | |- context [run_steps self1 steps ?plan ui uid models ?r0] =>
      pose proof (run_steps_tools self1 steps plan ui uid models r0
                    Hobjects Htools) as Hused;
      destruct (run_steps self1 steps plan ui uid models r0) as [r [e|]]
  end; cbn in Hused; [done|].
  destruct (generate_final_response self1 r ui (JDict d)); [|done].
  by destruct (cleanup_models self1 (JDict d)) as [[[]|] ?].
Qed.

End Running.

(** ** Task analysis *)

Section Analysis.
Context `{Runtime}.
Implicit Types (self : DynamicModelLoader) (name : string) (model : Model).

(** What the parser makes of the reply of the main brain's stub. *)
Lemma text_brain_analysis (user_input context_text : string) :
  parse_task_analysis
    ("Analyzing: " +:+ py_prefix 100 (analysis_prompt user_input context_text)
     +:+ "... -> {'primary_capability': 'text', 'confidence': 0.8}")
  = Returned (JDict [ ("primary_capability", JStr "document");
                      ("additional_capabilities", JList []);
                      ("reasoning", JStr "Keyword-based detection");
                      ("confidence", JFloat 7 (-1)) ]).
Proof. vm_compute. reflexivity. Qed.

Lemma other_brain_analysis :
  parse_task_analysis "Main brain not available"
  = Returned (JDict [ ("primary_capability", JStr "text");
                      ("additional_capabilities", JList []);
                      ("reasoning", JStr "Keyword-based detection");
                      ("confidence", JFloat 3 (-1)) ]).
Proof. vm_compute. reflexivity. Qed.

(** What [analyze_task] returns, by the state of the main brain: the prompt
    is built first, which renders the context; a main brain then always gets
    the same classification, which the log message renders. *)
Lemma analyze_task_result self (user_input : string) (context : json) :
  analyze_task self user_input context
  = (context_text ← py_format (if truthy context then context else JDict []);
     Returned
       match main_brain self with
       | None =>
           JDict [ ("primary_capability", JStr "text");
                   ("additional_capabilities", JList []);
                   ("reasoning",
                     JStr "Main brain not available, using text fallback");
                   ("confidence", JFloat 5 (-1)) ]
       | Some brain =>
           let plan :=
             if String.eqb (model_type brain) "text"
             then JDict [ ("primary_capability", JStr "document");
                          ("additional_capabilities", JList []);
                          ("reasoning", JStr "Keyword-based detection");
                          ("confidence", JFloat 7 (-1)) ]
             else JDict [ ("primary_capability", JStr "text");
                          ("additional_capabilities", JList []);
                          ("reasoning", JStr "Keyword-based detection");
                          ("confidence", JFloat 3 (-1)) ] in
           match py_format plan with
           | Returned _ => plan
           | Raised e =>
               JDict [ ("primary_capability", JStr "text");
                       ("additional_capabilities", JList []);
                       ("reasoning", JStr ("Analysis failed: " +:+ exn_str e));
                       ("confidence", JFloat 1 (-1)) ]
           end
       end).
Proof.
  unfold analyze_task, loader_get_main_brain_response.
  destruct (py_format (if truthy context then context else JDict []))
    as [context_text|]; [|done].
  cbn [mbind outcome_bind].
  destruct (main_brain self) as [brain|]; [|reflexivity].
  destruct (String.eqb (model_type brain) "text"); cbv zeta.
  - rewrite text_brain_analysis. cbn [mbind outcome_bind try_except].
    by destruct (py_format _).
  - rewrite other_brain_analysis. cbn [mbind outcome_bind try_except].
    by destruct (py_format _).
Qed.


Lemma load_model_frame self (model_name : json) (force_reload : bool) :
  config (load_model self model_name force_reload).2 = config self
  ∧ main_brain (load_model self model_name force_reload).2 = main_brain self.
Proof.
  destruct (load_model_cases self model_name force_reload)
    as [(_ & ->) | [(_ & e & _ & ->)
       | [(_ & _ & ->) | (name & model & -> & Hcase)]]]; [done..|].
  by destruct Hcase as [(_ & _ & ->) | (_ & ->)].
Qed.






(** X14.  [analyze_and_execute] gives the same answer, and leaves the same
    loader, for every request; the context matters only through whether it
    can be rendered for the prompt, so that two contexts that can be rendered
    give the same answer too.  The models it prepares are those of the fixed
    capability [analyze_task] names, never those a request mentions. *)
Theorem analyze_and_execute_ignores_request self
    (user_input user_input' : string) (context context' : json) :
  analyze_and_execute self user_input context
  = analyze_and_execute self user_input' context
  ∧ (formattable (if truthy context then context else JDict []) →
     formattable (if truthy context' then context' else JDict []) →
     analyze_and_execute self user_input context
     = analyze_and_execute self user_input' context').
Proof.
  unfold analyze_and_execute. rewrite !analyze_task_result. split; [done|].
  intros [text ->] [text' ->]. done.
Qed.
End Analysis.

(** ** What the parsers return *)

Section Objects.
#[local] Arguments Ascii.eqb : simpl never.

Lemma parse_object_dict (n : nat) (s : string) (acc : list (string * json))
    (v : json) (rest : string) :
  parse_object n s acc = Scanned v rest → is_dict v = true.
Proof.
  revert s acc. induction n as [|n IH]; intros s acc; [done|].
  cbn [parse_object].
  destruct s as [|c r]; [done|].
  destruct (Ascii.eqb c dquote); [|done].
  destruct (scanstring r) as [key r1| |]; [|done..].
  destruct (skip_ws r1) as [|c2 r2]; [done|].
  destruct (Ascii.eqb c2 ":"); [|done].
  destruct (scan_once n (skip_ws r2)) as [v' r3| |]; [|done..].
  destruct (skip_ws r3) as [|c3 r4]; [done|].
  destruct (Ascii.eqb c3 "}"); [by intros [= <- <-]|].
  destruct (Ascii.eqb c3 ","); [apply IH|done].
Qed.

Lemma scan_once_brace (n : nat) (r : string) (v : json) (rest : string) :
  scan_once n (String "{" r) = Scanned v rest → is_dict v = true.
Proof.
  destruct n as [|n]; [done|]. cbn [scan_once].
  replace (Ascii.eqb "{" dquote) with false by reflexivity.
  replace (Ascii.eqb "{" "{") with true by reflexivity.
  destruct (skip_ws r) as [|c1 r1]; [apply parse_object_dict|].
  destruct (Ascii.eqb c1 "}"); [by intros [= <- <-]|apply parse_object_dict].
Qed.

(** A text that starts with a brace decodes to an object or not at all. *)
Lemma json_loads_object (r : string) (plan : json) :
  json_loads (String "{" r) = Returned plan → is_dict plan = true.
Proof.
  unfold json_loads.
  replace (starts_with utf8_bom (String "{" r)) with false by reflexivity.
  replace (skip_ws (String "{" r)) with (String "{" r) by reflexivity.
  destruct (scan_once _ _) as [v rest| |] eqn:Hscan; [|done..].
  apply scan_once_brace in Hscan.
  destruct (skip_ws rest); [by intros [= <-]|done].
Qed.

(** X12.  Both parsers return an object for every response: what
    [json.loads] decodes from a span that starts with a brace is an object,
    and the two fallbacks are objects.  So a parsed plan always has the
    method [get] that the callers use on it. *)
Theorem parsers_return_objects (response : string) :
  (∃ d, parse_execution_plan response = Returned (JDict d))
  ∧ (∃ d, parse_task_analysis response = Returned (JDict d)).
Proof.
  unfold parse_task_analysis, try_except. rewrite parse_execution_plan_cases.
  destruct (regex_search response) as [group|] eqn:Hgroup;
    [|split; by eexists].
  apply regex_search_inv in Hgroup as (pre & inner & post & _ & -> & _).
  destruct (json_loads (brace_span inner)) as [plan|e] eqn:Hplan;
    [|split; by eexists].
  apply json_loads_object in Hplan.
  destruct plan; try done. split; by eexists.
Qed.
End Objects.

(** ** What the main brain is asked and what it answers *)

Section Replies.
Context `{Runtime}.
Implicit Types (self : IntelligentAgent) (plan step : json).
Implicit Types (d : list (string * json)) (models : list (string * Model)).

Lemma py_prefix_prefix (n m : nat) (s : string) :
  (n ≤ m)%nat → py_prefix n (py_prefix m s) = py_prefix n s.
Proof.
  revert n m. induction s as [|c r IH]; intros n m Hle; [done|].
  cbn [py_prefix].
  destruct (is_continuation c) eqn:Hc.
  - cbn [py_prefix]. rewrite Hc. by rewrite IH.
  - destruct m as [|m]; [by replace n with O by lia|].
    cbn [py_prefix]. rewrite Hc.
    destruct n as [|n]; [done|]. rewrite IH; [done|lia].
Qed.

(** The reply of the main brain depends on the agent through its main brain
    only, and on the prompt through its first 100 characters only. *)
Lemma get_main_brain_response_same self self' (prompt prompt' : string) :
  main_brain <$> model_loader self = main_brain <$> model_loader self' →
  py_prefix 100 prompt = py_prefix 100 prompt' →
  get_main_brain_response self prompt = get_main_brain_response self' prompt'.
Proof.
  intros Hbrain Hprompt.
  assert (py_prefix 50 prompt = py_prefix 50 prompt') as Hshort.
  { rewrite <- (py_prefix_prefix 50 100 prompt), Hprompt by lia.
    apply py_prefix_prefix. lia. }
  unfold get_main_brain_response.
  destruct MODEL_LOADER_AVAILABLE; [|by rewrite Hshort].
  destruct (model_loader self) as [loader|], (model_loader self') as [loader'|];
    try done; [|by rewrite Hshort].
  injection Hbrain as ->.
  destruct (main_brain loader') as [brain|]; [|by rewrite Hprompt].
  destruct (String.eqb _ _); by rewrite ?Hprompt, ?Hshort.
Qed.

(** X15.  [analyze_and_plan] never plans: unless serialising the context
    or the history raises (which it passes on), it returns the fallback plan,
    for every request and every state of the agent.  The stub of the main
    brain echoes at most the first 100 characters of the prompt, which hold
    no brace, so the parser finds nothing to decode. *)
Theorem analyze_and_plan_always_fallback self (user_input : string)
    (context recent_history : json) :
  analyze_and_plan self user_input context recent_history
  = (context_text ← json_dumps (Some 2%nat) context;
     history_text ← json_dumps (Some 2%nat) recent_history;
     Returned (create_fallback_plan user_input)).
Proof.
  unfold analyze_and_plan.
  destruct (json_dumps (Some 2%nat) context) as [context_text|]; [|done].
  destruct (json_dumps (Some 2%nat) recent_history) as [history_text|]; [|done].
  cbn [mbind outcome_bind]. unfold get_main_brain_response.
  destruct MODEL_LOADER_AVAILABLE; [|vm_compute; reflexivity].
  destruct (model_loader self) as [loader|]; [|vm_compute; reflexivity].
  destruct (main_brain loader) as [brain|]; [|vm_compute; reflexivity].
  destruct (String.eqb (model_type brain) "text"); vm_compute; reflexivity.
Qed.

Lemma load_each_brain (capabilities : list json) (loader : DynamicModelLoader)
    (required : list (string * Model)) :
  main_brain (load_each loader capabilities required).2 = main_brain loader.
Proof.
  revert loader required.
  induction capabilities as [|capability rest IH]; intros loader required;
    [done|].
  cbn [load_each].
  destruct (truthy capability && negb (eq_str capability "tools")); [|apply IH].
  pose proof (load_model_frame loader capability false) as [_ Hbrain].
  destruct (load_model loader capability false) as [[[model|]|e] loader'];
    cbn in Hbrain; rewrite <- Hbrain; [|apply IH|].
  - destruct capability; apply IH.
  - destruct (py_format capability); [apply IH|done].
Qed.

Lemma load_required_models_brain self plan :
  main_brain <$> model_loader (load_required_models self plan).2
  = main_brain <$> model_loader self.
Proof.
  unfold load_required_models.
  destruct MODEL_LOADER_AVAILABLE; [|done].
  destruct (model_loader self) as [loader|] eqn:Hloader;
    [|cbn; by rewrite Hloader].
  match goal with
  | |- context [match ?a with Returned _ => _ | Raised _ => _ end] =>
      destruct a as [capabilities|]; [|cbn; by rewrite Hloader]
  end.
  pose proof (load_each_brain capabilities loader []) as Hbrain.
  destruct (load_each loader capabilities []) as [result loader'].
  cbn in *. by rewrite Hbrain.
Qed.

(** X16.  The reply of a run that succeeds is the same text whatever was
    asked and whatever the steps did: two successful runs of an agent, on any
    two plans and requests, give the same response.  The final prompt differs
    between runs only after its first 100 characters, and the stub of the
    main brain reads no further. *)
Theorem successful_runs_answer_alike self plan plan'
    (user_input user_input' user_id user_id' : string) :
  success (execute_plan self plan user_input user_id).1 = true →
  success (execute_plan self plan' user_input' user_id').1 = true →
  response (execute_plan self plan user_input user_id).1
  = response (execute_plan self plan' user_input' user_id').1.
Proof.
  intros Hsuccess Hsuccess'.
  destruct (execute_plan_ends self plan user_input user_id)
    as [(r & e & Hfailed & _)
       |(models & self1 & steps & r & text & Hload & _ & _ & Hfinal & _ & ->)];
    [by rewrite Hfailed in Hsuccess|].
  destruct (execute_plan_ends self plan' user_input' user_id')
    as [(r0 & e & Hfailed & _)
       |(models' & self1' & steps' & r' & text' & Hload' & _ & _ & Hfinal' & _ & ->)];
    [by rewrite Hfailed in Hsuccess'|].
  cbn. clear Hsuccess Hsuccess'.
  pose proof (load_required_models_brain self plan) as Hbrain.
  pose proof (load_required_models_brain self plan') as Hbrain'.
  rewrite Hload in Hbrain. rewrite Hload' in Hbrain'. cbn in Hbrain, Hbrain'.
  unfold generate_final_response in Hfinal, Hfinal'.
  destruct (py_get plan "intent" (JStr "")) as [intent|]; [|done].
  destruct (py_get plan' "intent" (JStr "")) as [intent'|]; [|done].
  cbn [mbind outcome_bind] in Hfinal, Hfinal'.
  destruct (py_format intent) as [intent_text|]; [|done].
  destruct (py_format intent') as [intent_text'|]; [|done].
  cbn [mbind outcome_bind] in Hfinal, Hfinal'.
  destruct (py_format (JBool (success r))) as [success_text|]; [|done].
  destruct (py_format (JBool (success r'))) as [success_text'|]; [|done].
  cbn [mbind outcome_bind] in Hfinal, Hfinal'.
  destruct (json_dumps _ (JList (steps_completed r))) as [dumped|]; [|done].
  destruct (json_dumps _ (JList (steps_completed r'))) as [dumped'|]; [|done].
  cbn [mbind outcome_bind] in Hfinal, Hfinal'.
  injection Hfinal as <-. injection Hfinal' as <-.
  apply get_main_brain_response_same; [congruence|].
  vm_compute. reflexivity.
Qed.

(** X17.  A step that names a tool whose name can be rendered (as every
    string can) is recorded as a success whatever becomes of the tool: the
    error of a tool that is missing, that raises, or whose name cannot be
    looked up, is only the text of the step's result. *)
Theorem tool_step_recorded_as_success self d plan
    (user_input user_id : string) models (tool : json) (name : string) :
  dict_get d "tool" = Some tool → truthy tool = true →
  py_format tool = Returned name →
  ∃ text,
    use_tool self tool user_input plan = Returned text
    ∧ execute_step self (JDict d) plan user_input user_id models
      = Returned
          (JDict [ ("step_number", default (JInt 0) (dict_get d "step"));
                   ("action", default (JStr "") (dict_get d "action"));
                   ("capability", default (JStr "text") (dict_get d "capability"));
                   ("success", JBool true);
                   ("result", JStr text);
                   ("tool_used", tool) ])
    ∧ (get_tool self tool = Returned None →
       text = "Tool " +:+ name +:+ " not found")
    ∧ (∀ f e, get_tool self tool = Returned (Some f) →
              f user_input plan = Raised e →
              text = "Error using tool " +:+ name +:+ ": " +:+ exn_str e)
    ∧ (∀ e, get_tool self tool = Raised e →
            text = "Error using tool " +:+ name +:+ ": " +:+ exn_str e)
    ∧ (tools self = PlaceholderToolRegistry →
       text = "Tool " +:+ name +:+ " not found").
Proof.
  intros Htool Htruthy Hname.
  assert (∃ text, use_tool self tool user_input plan = Returned text)
    as [text Huse].
  { destruct (use_tool self tool user_input plan) as [text|e] eqn:Huse;
      [by eexists|].
    apply use_tool_raises in Huse. congruence. }
  exists text. split; [done|]. split_and!.
  - rewrite execute_step_object. unfold step_dispatch.
    rewrite Htool. cbn [default from_option id]. by rewrite Htruthy, Huse.
  - unfold use_tool in Huse. intros Hget. rewrite Hget, Hname in Huse.
    cbn in Huse. by injection Huse.
  - unfold use_tool in Huse. intros f e Hget Hf.
    rewrite Hget in Huse. cbn in Huse. rewrite Hf, Hname in Huse.
    cbn in Huse. by injection Huse.
  - unfold use_tool in Huse. intros e Hget. rewrite Hget, Hname in Huse.
    cbn in Huse. by injection Huse.
  - unfold use_tool, get_tool in Huse. intros Hplaceholder.
    rewrite Hplaceholder, Hname in Huse. cbn in Huse. by injection Huse.
Qed.
End Replies.

(** ** The loader's table of models *)

Section Table.
Context `{Runtime}.
Implicit Types (self : DynamicModelLoader) (name : string) (model : Model).

Lemma loader_eq self self' :
  config self = config self' → loaded_models self = loaded_models self' →
  main_brain self = main_brain self' → self = self'.
Proof. destruct self, self'. cbn. by intros -> -> ->. Qed.

(** X18.  [unload_unused_models] keeps exactly the loaded models whose name
    is in the keep list it works with, each as it was; it loads nothing, does
    not touch the configuration, and leaves the attribute [main_brain] as it
    was even when it unloads the model the attribute holds.  Unloading twice
    is unloading once. *)
Theorem unload_unused_models_keeps_exactly self
    (keep_models : option (list string)) :
  loaded_models (unload_unused_models self keep_models)
  = filter (fun entry => entry.1 ∈ keep_or_default keep_models)
           (loaded_models self)
  ∧ config (unload_unused_models self keep_models) = config self
  ∧ main_brain (unload_unused_models self keep_models) = main_brain self
  ∧ unload_unused_models (unload_unused_models self keep_models) keep_models
    = unload_unused_models self keep_models.
Proof.
  split_and!; [|done..|].
  - apply map_eq. intros name. apply option_eq. intros model.
    rewrite map_lookup_filter_Some, unload_unused_models_lookup. cbn.
    destruct (decide (name ∈ keep_or_default keep_models)) as [Hin|Hout].
    + split; [by split|by intros [? _]].
    + split; [done|by intros [_ ?]].
  - apply loader_eq; [done| |done].
    apply map_eq. intros name. rewrite !unload_unused_models_lookup.
    by destruct (decide _).
Qed.

End Table.

(** X20.  The keyword classifier never names a capability twice: the
    primary capability and the additional ones are pairwise distinct, all of
    them are capabilities of the table except a primary "text", and "text" is
    the primary capability exactly when no keyword was found, in which case
    there are no additional capabilities and the confidence is 0.3. *)
Theorem fallback_parse_distinct (response : string) :
  ∃ (primary : string) (additional : list string) (confidence : Z),
    fallback_parse response
    = JDict [ ("primary_capability", JStr primary);
              ("additional_capabilities", JList (JStr <$> additional));
              ("reasoning", JStr "Keyword-based detection");
              ("confidence", JFloat confidence (-1)) ]
    ∧ NoDup (primary :: additional)
    ∧ (∀ capability, capability ∈ additional →
                     capability ∈ capabilities.*1)
    ∧ (primary = "text" ∨ primary ∈ capabilities.*1)
    ∧ (primary = "text" ↔ detect capabilities (lower response) = [])
    ∧ (primary = "text" → additional = [] ∧ confidence = 3)
    ∧ (primary ≠ "text" → confidence = 7).
Proof.
  assert (NoDup (capabilities.*1)) as Hnodup
    by (apply (bool_decide_unpack _); by vm_compute).
  assert ("text" ∉ capabilities.*1) as Htext
    by (apply (bool_decide_unpack _); by vm_compute).
  assert (sublist (detect capabilities (lower response)) (capabilities.*1))
    as Hsub by (unfold detect; apply fmap_sublist, sublist_filter).
  unfold fallback_parse.
  destruct (detect capabilities (lower response)) as [|first rest] eqn:Hdetect.
  - exists "text", [], 3. cbn. split_and!; try done.
    + apply NoDup_singleton.
    + by intros ? ?%elem_of_nil.
    + by left.
  - assert (first ∈ capabilities.*1) as Hfirst.
    { eapply elem_of_sublist; [|exact Hsub]. by left. }
    exists first, rest, 7.
    assert ((if decide (1 < length (first :: rest))%nat
             then drop 1 (first :: rest) else []) = rest) as ->.
    { destruct rest; [done|]. cbn. case_decide; [done|lia]. }
    split_and!; try done.
    + by eapply sublist_NoDup.
    + intros capability Hin.
      eapply elem_of_sublist; [|exact Hsub]. by right.
    + by right.
    + split; [|done]. by intros ->.
    + by intros ->.
Qed.

(** *** The properties on the example agent and loaders *)

(** A call that returns the value [a] returns it with the state it leaves. *)
Lemma with_state {A B} (p : A * B) (a : A) : p.1 = a → p = (a, p.2).
Proof. destruct p. cbn. by intros ->. Defined.

Lemma some_default {A} (o : option A) (d : A) :
  match o with Some _ => true | None => false end = true →
  o = Some (default d o).
Proof. by destruct o. Defined.


Lemma load_model_twice_witness :
  load_model (H := example_runtime 1000)
    (load_model (H := example_runtime 1000) (example_loader 1000)
       (JStr "text") true).2
    (JStr "text") false
  = (Returned (Some (example_text_model 1000)),
     (load_model (H := example_runtime 1000) (example_loader 1000)
        (JStr "text") true).2).
Proof.
  apply (load_model_twice (H := example_runtime 1000) (example_loader 1000)
           (JStr "text") true).
  apply with_state. vm_compute. reflexivity.
Defined.

Lemma load_model_not_enabled_witness :
  load_model (H := example_runtime 1000) (example_loader 1000)
    (JStr "speech_input") false
  = (Returned None, example_loader 1000).
Proof.
  apply (load_model_not_enabled (H := example_runtime 1000)
           (example_loader 1000) "speech_input" false
           (match example_config with JDict d => d | _ => [] end)
           (match example_config with
            | JDict d =>
                match dict_get d "models" with
                | Some (JDict models) => models
                | _ => []
                end
            | _ => []
            end)).
  - vm_compute. reflexivity.
  - reflexivity.
  - left. reflexivity.
  - vm_compute. reflexivity.
Defined.


Lemma successful_run_unloads_witness :
  "text" = "deepseek-r1"
  ∨ ("text" ∈ ["embedding"; "text"]
     ∧ py_get (JDict [ ("complexity", JStr "complex");
                       ("primary_capability", JStr "text") ])
         "complexity" JNull
       = Returned (JStr "complex")).
Proof.
  apply (successful_run_unloads (H := example_runtime 1000)
           (example_agent 1000)
           (JDict [ ("complexity", JStr "complex");
                    ("primary_capability", JStr "text") ])
           "Hello" "default"
           (default (example_loader 1000)
              (model_loader
                 (execute_plan (H := example_runtime 1000) (example_agent 1000)
                    (JDict [ ("complexity", JStr "complex");
                             ("primary_capability", JStr "text") ])
                    "Hello" "default").2))
           "text" (example_text_model 1000)).
  - reflexivity.
  - vm_compute. reflexivity.
  - apply some_default. vm_compute. reflexivity.
  - vm_compute. reflexivity.
Defined.

Lemma execute_plan_stops_at_non_object_witness :
  length (steps_completed
            (execute_plan (H := example_runtime 1000) (example_agent 1000)
               malformed_plan "Hello" "default").1) = 1%nat
  ∧ success (execute_plan (H := example_runtime 1000) (example_agent 1000)
               malformed_plan "Hello" "default").1 = false
  ∧ error (execute_plan (H := example_runtime 1000) (example_agent 1000)
             malformed_plan "Hello" "default").1
    = Some "'int' object has no attribute 'get'"
  ∧ response (execute_plan (H := example_runtime 1000) (example_agent 1000)
                malformed_plan "Hello" "default").1
    = get_fallback_response "Hello".
Proof.
  apply (execute_plan_stops_at_non_object (H := example_runtime 1000)
           (example_agent 1000)
           [ ("intent", JStr "greet");
             ("execution_steps",
               JList [ JDict [ ("step", JInt 1); ("action", JStr "greet") ];
                       JInt 5 ]) ]
           [ JDict [ ("step", JInt 1); ("action", JStr "greet") ] ] [] []
           (JInt 5) "Hello" "default").
  - reflexivity.
  - repeat constructor.
  - reflexivity.
  - reflexivity.
  - repeat constructor. by eexists.
Defined.

Lemma execute_plan_tools_used_witness :
  tools_used (execute_plan (H := example_runtime 1000) (example_agent 1000)
                tool_plan "Find it" "default").1
  = [JStr "web_search"; JStr "file_writer"].
Proof.
  apply (execute_plan_tools_used (H := example_runtime 1000)
           (example_agent 1000) tool_plan (plan_steps tool_plan)
           "Find it" "default").
  - plan_shape_by_computation.
  - repeat constructor; by eexists.
Defined.


Lemma successful_runs_answer_alike_witness :
  response (execute_plan (H := example_runtime 1000) (example_agent 1000)
              vision_plan "What is in this image?" "default").1
  = response (execute_plan (H := example_runtime 1000) (example_agent 1000)
                dependent_plan "Summarise this" "alice").1.
Proof.
  apply (successful_runs_answer_alike (H := example_runtime 1000)
           (example_agent 1000) vision_plan dependent_plan
           "What is in this image?" "Summarise this" "default" "alice").
  - vm_compute. reflexivity.
  - vm_compute. reflexivity.
Defined.

Lemma tool_step_recorded_as_success_witness :
  use_tool (H := example_runtime 1000) (example_agent 1000)
    (JStr "web_search") "Find it" tool_plan
  = Returned "Tool web_search not found"
  ∧ execute_step (H := example_runtime 1000) (example_agent 1000)
      (JDict [ ("step", JInt 1); ("action", JStr "search");
               ("tool", JStr "web_search") ])
      tool_plan "Find it" "default" []
    = Returned
        (JDict [ ("step_number", JInt 1);
                 ("action", JStr "search");
                 ("capability", JStr "text");
                 ("success", JBool true);
                 ("result", JStr "Tool web_search not found");
                 ("tool_used", JStr "web_search") ]).
Proof.
  destruct (tool_step_recorded_as_success (H := example_runtime 1000)
              (example_agent 1000)
              [ ("step", JInt 1); ("action", JStr "search");
                ("tool", JStr "web_search") ]
              tool_plan "Find it" "default" [] (JStr "web_search")
              "web_search" eq_refl eq_refl eq_refl)
    as (text & Huse & Hstep & _ & _ & _ & Hplaceholder).
  rewrite (Hplaceholder eq_refl) in Huse, Hstep. by split.
Defined.
